(** * website-monitor: a shallow embedding of [website_monitor.py] and [app.py]

    The change detector [WebsiteChangeMonitor] and the loop [monitor_website]
    are written as programs in a small state-and-exception monad.  Everything
    the Python code obtains from outside the process (the HTTP response, the
    clock, whether the hash file can be written, how the SMTP server answers)
    is an explicit input of type [env]; everything it does to the outside
    (files, log lines, SMTP commands, sleeps) is recorded in [world]. *)

From Stdlib Require Import ZArith String Ascii List Bool Lia.
From stdpp Require Import base option strings pretty gmap.
Import ListNotations.
Local Open Scope string_scope.
Local Open Scope Z_scope.

(** ** Python values *)

(** The values that can come out of [json.load] or sit in a configuration
    dictionary (floats are left out: the program never produces one). *)
#[local] Set Warnings "-register-all".
Inductive pyval : Type :=
| PyNone
| PyBool (b : bool)
| PyInt (z : Z)
| PyStr (s : string)
| PyList (l : list pyval)
| PyDict (items : list (string * pyval)).

(** Python truthiness, as used by [if x:] and [not x]. *)
Definition truthy (v : pyval) : bool :=
  match v with
  | PyNone => false
  | PyBool b => b
  | PyInt z => negb (Z.eqb z 0)
  | PyStr s => negb (String.eqb s "")
  | PyList l => match l with [] => false | _ => true end
  | PyDict d => match d with [] => false | _ => true end
  end.

(** [x or None] / [str | None] values coming from Python functions that
    return either a string or [None]. *)
Definition of_option (o : option string) : pyval :=
  match o with Some s => PyStr s | None => PyNone end.

(** [a != b] where [a] is a string or [None] (the only left operands the
    program uses): a string equals only the same string, [None] only [None]. *)
Definition py_ne (a : option string) (b : pyval) : bool :=
  match a, b with
  | Some x, PyStr y => negb (String.eqb x y)
  | None, PyNone => false
  | _, _ => true
  end.

Fixpoint assoc (k : string) (items : list (string * pyval)) : option pyval :=
  match items with
  | [] => None
  | (k', v) :: rest => if String.eqb k k' then Some v else assoc k rest
  end.

(** ** Exceptions *)

Inductive exn : Type :=
| ConnectionError | HTTPError | Timeout | TooManyRedirects
| ValueError | JSONDecodeError | KeyError | AttributeError
| OSError | SMTPException
| OtherException (name : string)
| KeyboardInterrupt.

(** [except Exception] catches everything but the [BaseException]-only
    classes. *)
Definition is_Exception (e : exn) : bool :=
  match e with KeyboardInterrupt => false | _ => true end.

(** [except requests.RequestException]. *)
Definition is_RequestException (e : exn) : bool :=
  match e with
  | ConnectionError | HTTPError | Timeout | TooManyRedirects => true
  | _ => false
  end.

(** [except ValueError] ([json.JSONDecodeError] is a subclass). *)
Definition is_ValueError (e : exn) : bool :=
  match e with ValueError | JSONDecodeError => true | _ => false end.

Definition is_KeyboardInterrupt (e : exn) : bool :=
  match e with KeyboardInterrupt => true | _ => false end.

(** ** The outside world *)

(** What [json.load] finds in a file: a JSON document, or bytes that do not
    parse.  [json.dump] followed by [json.load] is taken to give the value
    back. *)
Inductive file : Type :=
| FileJson (v : pyval)
| FileCorrupt.

Inductive level : Type := INFO | WARNING | ERROR.

(** One constructor per [logger] call of the two modules. *)
Inductive message : Type :=
| MonitoringInitialized (url : string)
| PreviousHash (h : pyval)
| ErrorReadingHashFile (e : exn)
| ErrorSavingHashFile (e : exn)
| ErrorFetching (e : exn)
| EmailNotProvided
| EmailSent
| EmailFailed (e : exn)
| ChangeDetectedAt (url : string) (at_ : string)
| Checking (url : string)
| FailedToGetContent
| FirstRun (url : string)
| ChangeDetected (url : string)
| NoChanges (url : string)
| StartingToMonitor (url : string) (interval : Z)
| Sleeping (interval : Z)
| StoppedByUser
| UnexpectedError (e : exn)
| WebsiteUrlNotSet
| InvalidCheckInterval
| EmailConfigured
| EmailNotConfigured
| StartingWebsiteMonitor (url : string)
| SleepingUntilNextCheck (interval : Z)
| ErrorInMonitoringLoop (e : exn).

Definition log_record : Type := level * message.

Record email_message : Type := MIMEText {
  msg_body : string;
  msg_subject : string;
  msg_from : pyval;
  msg_to : pyval
}.

(** The calls made on [smtplib]. *)
Inductive smtp_action : Type :=
| SMTP_connect (host port : pyval)
| SMTP_starttls
| SMTP_login (user password : pyval)
| SMTP_send_message (m : email_message)
| SMTP_quit.

Inductive smtp_step : Type :=
| StepConnect | StepStartTLS | StepLogin | StepSend | StepQuit.

Definition smtp_step_eqb (a b : smtp_step) : bool :=
  match a, b with
  | StepConnect, StepConnect | StepStartTLS, StepStartTLS
  | StepLogin, StepLogin | StepSend, StepSend | StepQuit, StepQuit => true
  | _, _ => false
  end.

(** [monitor_status], the module-level dictionary of [app.py]. *)
Record MonitorStatus : Type := mkStatus {
  is_running : bool;
  last_check_time : option Z;
  target_url : option string;
  status_check_interval : option Z;
  changes_detected : Z
}.

Record world : Type := mkWorld {
  files : gmap string file;
  logs : list log_record;
  smtp_trace : list smtp_action;
  sleeps : list Z;
  monitor_status : MonitorStatus
}.

Inductive fetch_result : Type :=
| FetchText (text : string)      (* [response.text] after [raise_for_status()] *)
| FetchRaises (e : exn).         (* [requests.get] or [raise_for_status] raised *)

Inductive write_result : Type :=
| WriteOk
| WriteOpenFails                 (* [open(..., 'w')] raises: file untouched *)
| WriteDumpFails.                (* opened (truncated), then the write raises *)

(** What the outside answers during one check. *)
Record env : Type := mkEnv {
  env_fetch : fetch_result;
  env_write : write_result;
  env_now : Z;                       (* the clock, in seconds *)
  env_smtp_error : option smtp_step  (* the SMTP call that raises, if any *)
}.

(** The library functions the program calls but does not define. *)
Record library : Type := mkLibrary {
  md5_hexdigest : string -> string;
  sha256_hexdigest : string -> string;
  isoformat : Z -> string;
  strftime : Z -> string
}.

(** ** The monad: state plus exceptions *)

Inductive outcome (A : Type) : Type :=
| Returns (a : A)
| Raised (e : exn).
Arguments Returns {A} a.
Arguments Raised {A} e.

Definition M (S A : Type) : Type := S -> outcome A * S.

Definition ret {S A} (a : A) : M S A := fun s => (Returns a, s).

Definition bind {S A B} (m : M S A) (k : A -> M S B) : M S B :=
  fun s => match m s with
           | (Returns a, s') => k a s'
           | (Raised e, s') => (Raised e, s')
           end.

Definition raise {S A} (e : exn) : M S A := fun s => (Raised e, s).

(** [try: body except <class> as e: handler e] where [catches] decides
    whether the raised exception is an instance of the class. *)
Definition try_except {S A} (body : M S A) (catches : exn -> bool)
    (handler : exn -> M S A) : M S A :=
  fun s => match body s with
           | (Returns a, s') => (Returns a, s')
           | (Raised e, s') => if catches e then handler e s' else (Raised e, s')
           end.

Definition get {S} : M S S := fun s => (Returns s, s).
Definition modify {S} (f : S -> S) : M S unit := fun s => (Returns tt, f s).

Declare Scope py_scope.
Delimit Scope py_scope with py.
Notation "x <- c ;; k" := (bind c (fun x => k))
  (at level 100, c at next level, right associativity) : py_scope.
Notation "c ;;; k" := (bind c (fun _ => k))
  (at level 100, right associativity) : py_scope.
Local Open Scope py_scope.

(** ** Effects on the world *)

Definition add_log (r : log_record) (w : world) : world :=
  mkWorld (files w) (logs w ++ [r]) (smtp_trace w) (sleeps w) (monitor_status w).

Definition set_files (fs : gmap string file) (w : world) : world :=
  mkWorld fs (logs w) (smtp_trace w) (sleeps w) (monitor_status w).

Definition add_smtp (a : smtp_action) (w : world) : world :=
  mkWorld (files w) (logs w) (smtp_trace w ++ [a]) (sleeps w) (monitor_status w).

Definition add_sleep (n : Z) (w : world) : world :=
  mkWorld (files w) (logs w) (smtp_trace w) (sleeps w ++ [n]) (monitor_status w).

Definition set_status (st : MonitorStatus) (w : world) : world :=
  mkWorld (files w) (logs w) (smtp_trace w) (sleeps w) st.

(** [logger.info], [logger.warning], [logger.error]. *)
Definition log (l : level) (m : message) : M world unit :=
  modify (add_log (l, m)).

(** [time.sleep(n)] for an integer [n]: a negative length is a [ValueError],
    one that does not fit the 64-bit nanosecond clock an [OverflowError]. *)
Definition time_sleep (n : Z) : M world unit :=
  if n <? 0 then raise ValueError
  else if 9223372036 <? n then raise (OtherException "OverflowError")
  else modify (add_sleep n).

Definition present {A} (o : option A) : bool :=
  match o with Some _ => true | None => false end.

(** [os.path.exists(path)]. *)
Definition os_path_exists (path : string) : M world bool :=
  w <- get ;; ret (present (files w !! path)).

(** [with open(path, 'r') as f: json.load(f)]. *)
Definition open_json_load (path : string) : M world pyval :=
  w <- get ;;
  match files w !! path with
  | Some (FileJson v) => ret v
  | Some FileCorrupt => raise JSONDecodeError
  | None => raise OSError
  end.

(** [with open(path, 'w') as f: json.dump(v, f)]. *)
Definition open_json_dump (r : write_result) (path : string) (v : pyval)
  : M world unit :=
  match r with
  | WriteOk => modify (fun w => set_files (<[path := FileJson v]> (files w)) w)
  | WriteOpenFails => raise OSError
  | WriteDumpFails =>
      modify (fun w => set_files (<[path := FileCorrupt]> (files w)) w) ;;;
      raise OSError
  end.

(** One call on the SMTP connection: it is recorded, and raises when the
    environment says this is the call that fails. *)
Definition smtp_call (e : env) (step : smtp_step) (a : smtp_action)
  : M world unit :=
  modify (add_smtp a) ;;;
  match env_smtp_error e with
  | Some s => if smtp_step_eqb s step then raise SMTPException else ret tt
  | None => ret tt
  end.

(** [d[k]] *)
Definition getitem {S} (d : pyval) (k : string) : M S pyval :=
  match d with
  | PyDict items =>
      match assoc k items with Some v => ret v | None => raise KeyError end
  | _ => raise (OtherException "TypeError")
  end.

(** [d.get(k, default)] *)
Definition dict_get {S} (d : pyval) (k : string) (default : pyval) : M S pyval :=
  match d with
  | PyDict items => ret (match assoc k items with Some v => v | None => default end)
  | _ => raise AttributeError
  end.

Fixpoint is_prefix (p s : string) : bool :=
  match p, s with
  | EmptyString, _ => true
  | String a p', String b s' => Ascii.eqb a b && is_prefix p' s'
  | String _ _, EmptyString => false
  end.

Fixpoint is_substring (p s : string) : bool :=
  is_prefix p s ||
  match s with
  | EmptyString => false
  | String _ s' => is_substring p s'
  end.

(** [k in d] for a string [k]: a key of a dictionary, an element of a list,
    a substring of a string. *)
Definition contains {S} (d : pyval) (k : string) : M S bool :=
  match d with
  | PyDict items => ret (present (assoc k items))
  | PyList l =>
      ret (existsb (fun v => match v with
                             | PyStr s => String.eqb s k
                             | _ => false
                             end) l)
  | PyStr s => ret (is_substring k s)
  | _ => raise (OtherException "TypeError")
  end.

(** ** [class WebsiteChangeMonitor] *)

Record WebsiteChangeMonitor : Type := mkMonitor {
  url : string;
  check_interval : Z;
  email_config : pyval;
  url_hash : string;
  hash_file : string;
  previous_hash : pyval
}.

Definition set_previous_hash (h : pyval) (m : WebsiteChangeMonitor)
  : WebsiteChangeMonitor :=
  mkMonitor (url m) (check_interval m) (email_config m) (url_hash m)
            (hash_file m) h.

(** Methods run on the object together with the world. *)
Definition state : Type := WebsiteChangeMonitor * world.

Definition lift {A} (m : M world A) : M state A :=
  fun s => let '(r, w') := m (snd s) in (r, (fst s, w')).

Definition this : M state WebsiteChangeMonitor :=
  fun s => (Returns (fst s), s).

Definition assign_previous_hash (h : pyval) : M state unit :=
  modify (fun s => (set_previous_hash h (fst s), snd s)).

Section Monitor.

Variable L : library.

Definition _get_saved_hash : M state pyval :=
  self <- this ;;
  try_except
    (exists_ <- lift (os_path_exists (hash_file self)) ;;
     if exists_ then
       data <- lift (open_json_load (hash_file self)) ;;
       dict_get data "hash" PyNone
     else ret PyNone)
    is_Exception
    (fun e => lift (log ERROR (ErrorReadingHashFile e)) ;;; ret PyNone).

(** The dictionary [_save_hash] hands to [json.dump]. *)
Definition hash_record (e : env) (self : WebsiteChangeMonitor)
    (hash_value : option string) : pyval :=
  PyDict [("hash", of_option hash_value);
          ("url", PyStr (url self));
          ("timestamp", PyStr (isoformat L (env_now e)))].

Definition _save_hash (e : env) (hash_value : option string) : M state unit :=
  self <- this ;;
  try_except
    (lift (open_json_dump (env_write e) (hash_file self)
             (hash_record e self hash_value)))
    is_Exception
    (fun x => lift (log ERROR (ErrorSavingHashFile x))).

Definition _get_page_content (e : env) : M state (option string) :=
  try_except
    (match env_fetch e with
     | FetchText text => ret (Some text)
     | FetchRaises x => raise x
     end)
    is_RequestException
    (fun x => lift (log ERROR (ErrorFetching x)) ;;; ret None).

Definition _calculate_hash (content : option string) : option string :=
  match content with
  | Some c => if truthy (PyStr c) then Some (sha256_hexdigest L c) else None
  | None => None
  end.

Definition _send_email_notification (e : env) : M state unit :=
  self <- this ;;
  if negb (truthy (email_config self)) then
    lift (log INFO EmailNotProvided)
  else
    try_except
      (let config := email_config self in
       let body := "Change detected on " ++ url self ++ " at "
                   ++ strftime L (env_now e) in
       let subject := "Website Change Notification: " ++ url self in
       sender <- getitem config "sender" ;;
       recipient <- getitem config "recipient" ;;
       let msg := MIMEText body subject sender recipient in
       host <- getitem config "smtp_server" ;;
       port <- getitem config "smtp_port" ;;
       lift (smtp_call e StepConnect (SMTP_connect host port)) ;;;
       use_tls <- dict_get config "use_tls" (PyBool false) ;;
       (if truthy use_tls then lift (smtp_call e StepStartTLS SMTP_starttls)
        else ret tt) ;;;
       has_user <- contains config "username" ;;
       has_password <- (if has_user then contains config "password"
                        else ret false) ;;
       (if has_user && has_password then
          username <- getitem config "username" ;;
          password <- getitem config "password" ;;
          lift (smtp_call e StepLogin (SMTP_login username password))
        else ret tt) ;;;
       lift (smtp_call e StepSend (SMTP_send_message msg)) ;;;
       lift (smtp_call e StepQuit SMTP_quit) ;;;
       lift (log INFO EmailSent))
      is_Exception
      (fun x => lift (log ERROR (EmailFailed x))).

Definition _log_change (e : env) : M state unit :=
  self <- this ;;
  lift (log INFO (ChangeDetectedAt (url self) (strftime L (env_now e)))).

Definition check_for_changes (e : env) : M state bool :=
  self <- this ;;
  lift (log INFO (Checking (url self))) ;;;
  content <- _get_page_content e ;;
  if negb (truthy (of_option content)) then
    lift (log WARNING FailedToGetContent) ;;;
    ret false
  else
    let current_hash := _calculate_hash content in
    self <- this ;;
    if negb (truthy (previous_hash self)) then
      lift (log INFO (FirstRun (url self))) ;;;
      _save_hash e current_hash ;;;
      assign_previous_hash (of_option current_hash) ;;;
      ret false
    else if py_ne current_hash (previous_hash self) then
      lift (log INFO (ChangeDetected (url self))) ;;;
      _save_hash e current_hash ;;;
      assign_previous_hash (of_option current_hash) ;;;
      _log_change e ;;;
      self <- this ;;
      (if truthy (email_config self) then _send_email_notification e
       else ret tt) ;;;
      ret true
    else
      lift (log INFO (NoChanges (url self))) ;;;
      ret false.

(** [__init__]: builds the object, then reads the saved hash into it. *)
Definition __init__ (url_ : string) (check_interval_ : Z) (email_config_ : pyval)
  : M world WebsiteChangeMonitor :=
  fun w =>
    let url_hash_ := md5_hexdigest L url_ in
    let self0 := mkMonitor url_ check_interval_ email_config_ url_hash_
                   ("/tmp/website_hash_" ++ url_hash_ ++ ".json") PyNone in
    let init : M state unit :=
      saved <- _get_saved_hash ;;
      assign_previous_hash saved ;;;
      lift (log INFO (MonitoringInitialized url_)) ;;;
      self <- this ;;
      lift (log INFO (PreviousHash (previous_hash self))) in
    match init (self0, w) with
    | (Returns _, (self, w')) => (Returns self, w')
    | (Raised x, (_, w')) => (Raised x, w')
    end.

End Monitor.

(** How far a [while True] loop got on the environment answers supplied:
    it consumed all of them and is still looping, or it was left. *)
Inductive loop_end : Type := StillLooping | LoopLeft.

Section MonitorLoops.

Variable L : library.

(** The body of [while True:] in [start_monitoring], once per supplied
    environment answer. *)
Fixpoint start_monitoring_loop (es : list env) : M state loop_end :=
  match es with
  | [] => ret StillLooping
  | e :: es' =>
      check_for_changes L e ;;;
      self <- this ;;
      lift (log INFO (Sleeping (check_interval self))) ;;;
      lift (time_sleep (check_interval self)) ;;;
      start_monitoring_loop es'
  end.

Definition start_monitoring (es : list env) : M state loop_end :=
  self <- this ;;
  lift (log INFO (StartingToMonitor (url self) (check_interval self))) ;;;
  fun s =>
    match start_monitoring_loop es s with
    | (Returns r, s') => (Returns r, s')
    | (Raised x, s') =>
        if is_KeyboardInterrupt x then
          (lift (log INFO StoppedByUser) ;;; ret LoopLeft) s'
        else if is_Exception x then
          (lift (log ERROR (UnexpectedError x)) ;;; raise x) s'
        else (Raised x, s')
    end.

End MonitorLoops.

(** ** [app.py] *)

(** [int(s)] for ASCII input: surrounding whitespace, an optional sign,
    decimal digits with single underscores between them. *)
Definition is_space (c : ascii) : bool :=
  let n := N_of_ascii c in
  (N.eqb n 32 || (N.leb 9 n && N.leb n 13) || (N.leb 28 n && N.leb n 31))%N.

Definition digit_of (c : ascii) : option Z :=
  let n := Z.of_N (N_of_ascii c) in
  if (48 <=? n) && (n <=? 57) then Some (n - 48) else None.

Fixpoint parse_digits (cs : list ascii) (acc : Z) (after_digit : bool)
  : option Z :=
  match cs with
  | [] => if after_digit then Some acc else None
  | c :: cs' =>
      match digit_of c with
      | Some d => parse_digits cs' (10 * acc + d) true
      | None =>
          if Ascii.eqb c "_"%char && after_digit
          then parse_digits cs' acc false
          else None
      end
  end.

Fixpoint lstrip (cs : list ascii) : list ascii :=
  match cs with
  | c :: cs' => if is_space c then lstrip cs' else cs
  | [] => []
  end.

Definition strip (cs : list ascii) : list ascii :=
  rev (lstrip (rev (lstrip cs))).

Definition py_int (s : string) : option Z :=
  match strip (list_ascii_of_string s) with
  | "-"%char :: cs => Z.opp <$> parse_digits cs 0 false
  | "+"%char :: cs => parse_digits cs 0 false
  | cs => parse_digits cs 0 false
  end.

(** [int(s)] as a computation: [ValueError] when the text is no integer. *)
Definition int {S} (s : string) : M S Z :=
  match py_int s with Some z => ret z | None => raise ValueError end.

Definition lower_char (c : ascii) : ascii :=
  let n := N_of_ascii c in
  if (N.leb 65 n && N.leb n 90)%N then ascii_of_N (n + 32) else c.

(** [s.lower()] on ASCII text. *)
Fixpoint lower (s : string) : string :=
  match s with
  | EmptyString => EmptyString
  | String c s' => String (lower_char c) (lower s')
  end.

(** [os.environ.get(k)] is a string or [None]; [os.environ.get(k, d)]. *)
Definition environ_get (environ : gmap string string) (k : string) : pyval :=
  of_option (environ !! k).

Definition environ_get_default (environ : gmap string string) (k d : string)
  : string :=
  default d (environ !! k).

Definition status_set_last_check_time (t : Z) (st : MonitorStatus) :=
  mkStatus (is_running st) (Some t) (target_url st) (status_check_interval st)
           (changes_detected st).

Definition status_set_target_url (u : string) (st : MonitorStatus) :=
  mkStatus (is_running st) (last_check_time st) (Some u)
           (status_check_interval st) (changes_detected st).

Definition status_set_check_interval (i : Z) (st : MonitorStatus) :=
  mkStatus (is_running st) (last_check_time st) (target_url st) (Some i)
           (changes_detected st).

Definition status_set_is_running (b : bool) (st : MonitorStatus) :=
  mkStatus b (last_check_time st) (target_url st) (status_check_interval st)
           (changes_detected st).

Definition status_increment_changes (st : MonitorStatus) :=
  mkStatus (is_running st) (last_check_time st) (target_url st)
           (status_check_interval st) (changes_detected st + 1).

Definition update_status (f : MonitorStatus -> MonitorStatus) : M world unit :=
  modify (fun w => set_status (f (monitor_status w)) w).

(** [update_monitor_status(url=None, interval=None)]; [utcnow] is
    [datetime.now(timezone.utc)]. *)
Definition update_monitor_status (utcnow : Z) (url_ : option string)
    (interval : option Z) : M world unit :=
  update_status (status_set_last_check_time utcnow) ;;;
  (match url_ with
   | Some u => if truthy (PyStr u) then update_status (status_set_target_url u)
               else ret tt
   | None => ret tt
   end) ;;;
  (match interval with
   | Some i => if truthy (PyInt i) then update_status (status_set_check_interval i)
               else ret tt
   | None => ret tt
   end).

Section App.

Variable L : library.

(** One pass through the body of [while True:] in [monitor_website],
    including its [try]/[except Exception]. *)
Definition monitor_website_iteration (check_interval_ : Z) (e : env)
  : M state unit :=
  try_except
    (result <- check_for_changes L e ;;
     lift (update_monitor_status (env_now e) None None) ;;;
     (if result then lift (update_status status_increment_changes)
      else ret tt) ;;;
     lift (log INFO (SleepingUntilNextCheck check_interval_)) ;;;
     lift (time_sleep check_interval_))
    is_Exception
    (fun x => lift (log ERROR (ErrorInMonitoringLoop x)) ;;;
              lift (time_sleep 60)).

Fixpoint monitor_website_loop (check_interval_ : Z) (es : list env)
  : M state loop_end :=
  match es with
  | [] => ret StillLooping
  | e :: es' =>
      monitor_website_iteration check_interval_ e ;;;
      monitor_website_loop check_interval_ es'
  end.

(** The [email_config] built from the environment (lines 180-193). *)
Definition build_email_config (environ : gmap string string) : M world pyval :=
  if forallb (fun var => truthy (environ_get environ var))
             ["EMAIL_SENDER"; "EMAIL_RECIPIENT"; "SMTP_SERVER"]
  then
    smtp_port <- int (environ_get_default environ "SMTP_PORT" "587") ;;
    let config :=
      PyDict [("sender", environ_get environ "EMAIL_SENDER");
              ("recipient", environ_get environ "EMAIL_RECIPIENT");
              ("smtp_server", environ_get environ "SMTP_SERVER");
              ("smtp_port", PyInt smtp_port);
              ("use_tls",
               PyBool (String.eqb
                         (lower (environ_get_default environ "USE_TLS" "True"))
                         "true"));
              ("username", environ_get environ "EMAIL_USERNAME");
              ("password", environ_get environ "EMAIL_PASSWORD")] in
    log INFO EmailConfigured ;;;
    ret config
  else
    log WARNING EmailNotConfigured ;;;
    ret PyNone.

(** [monitor_website()], run on [os.environ = environ] for as many loop
    iterations as environment answers are supplied.  It returns [None] when
    the function returned before the loop, and otherwise the monitor object
    together with how the loop stands. *)
Definition monitor_website (environ : gmap string string) (es : list env)
  : M world (option (WebsiteChangeMonitor * loop_end)) :=
  let url_to_monitor := environ_get environ "WEBSITE_URL" in
  match url_to_monitor with
  | PyStr url_ =>
      if negb (truthy url_to_monitor) then
        log ERROR WebsiteUrlNotSet ;;; ret None
      else
        check_interval_ <-
          try_except (int (environ_get_default environ "CHECK_INTERVAL" "3600"))
            is_ValueError
            (fun _ => log ERROR InvalidCheckInterval ;;; ret 3600) ;;
        email_config_ <- build_email_config environ ;;
        monitor <- __init__ L url_ check_interval_ email_config_ ;;
        update_status (status_set_is_running true) ;;;
        update_status (status_set_target_url url_) ;;;
        update_status (status_set_check_interval check_interval_) ;;;
        log INFO (StartingWebsiteMonitor url_) ;;;
        fun w =>
          match monitor_website_loop check_interval_ es (monitor, w) with
          | (Returns r, (m, w')) => (Returns (Some (m, r)), w')
          | (Raised x, (_, w')) => (Raised x, w')
          end
  | _ => log ERROR WebsiteUrlNotSet ;;; ret None
  end.

End App.

(** ** A stand-in library, to run the program on concrete inputs

    Any digest functions would do; these ones keep their argument visible. *)
Definition sample_library : library :=
  mkLibrary (fun s => "md5(" ++ s ++ ")")
            (fun s => "sha256(" ++ s ++ ")")
            (fun t => "iso:" ++ pretty t)
            (fun t => "at:" ++ pretty t).

Definition empty_status : MonitorStatus := mkStatus false None None None 0.

(** A fresh machine: no files, nothing logged, [monitor_status] as the
    module initialises it. *)
Definition empty_world : world := mkWorld ∅ [] [] [] empty_status.

Definition sample_url : string := "https://example.com".

Definition env_page (text : string) (t : Z) : env :=
  mkEnv (FetchText text) WriteOk t None.

Definition env_down (t : Z) : env :=
  mkEnv (FetchRaises Timeout) WriteOk t None.

(** ** The four outcomes of a check, read off the log

    [check_for_changes] returns a [bool]; which of its four branches ran is
    visible in the line each branch logs. *)
Inductive Outcome : Type := NoChange | Changed | Indeterminate | FetchFailed.

Definition outcome_of_message (m : message) : option Outcome :=
  match m with
  | FailedToGetContent => Some FetchFailed
  | FirstRun _ => Some Indeterminate
  | ChangeDetected _ => Some Changed
  | NoChanges _ => Some NoChange
  | _ => None
  end.

(** The outcomes of all checks logged so far, oldest first. *)
Definition reported (w : world) : list Outcome :=
  omap (fun r => outcome_of_message (snd r)) (logs w).

Definition is_notification_line (r : log_record) : bool :=
  match snd r with
  | EmailSent | EmailFailed _ => true
  | _ => false
  end.

(** How many times a notification was attempted: every attempt ends in
    exactly one of the lines [EmailSent] and [EmailFailed]. *)
Definition count_attempts (ls : list log_record) : nat :=
  length (List.filter is_notification_line ls).

Definition notification_attempts (w : world) : nat :=
  count_attempts (logs w).

(** ** Predicates used to reason about the notifier *)

(** [w'] differs from [w] at most by further SMTP calls. *)
Definition same_but_smtp (w w' : world) : Prop :=
  files w' = files w /\ logs w' = logs w /\ sleeps w' = sleeps w /\
  monitor_status w' = monitor_status w /\
  exists t, smtp_trace w' = (smtp_trace w ++ t)%list.

(** A computation that leaves the object alone, touches nothing but the SMTP
    trace, and raises only [Exception]s. *)
Definition quiet {A} (c : M state A) : Prop :=
  forall s,
    fst (snd (c s)) = fst s /\
    same_but_smtp (snd s) (snd (snd (c s))) /\
    forall x, fst (c s) = Raised x -> is_Exception x = true.

(** Like [quiet], except that a normal return has logged [EmailSent] as its
    last act. *)
Definition quiet_until_sent {A} (c : M state A) : Prop :=
  forall s,
    fst (snd (c s)) = fst s /\
    files (snd (snd (c s))) = files (snd s) /\
    sleeps (snd (snd (c s))) = sleeps (snd s) /\
    monitor_status (snd (snd (c s))) = monitor_status (snd s) /\
    (exists t, smtp_trace (snd (snd (c s))) = (smtp_trace (snd s) ++ t)%list) /\
    match fst (c s) with
    | Returns _ => logs (snd (snd (c s))) = (logs (snd s) ++ [(INFO, EmailSent)])%list
    | Raised x => is_Exception x = true /\ logs (snd (snd (c s))) = logs (snd s)
    end.

(** ** Abbreviations used in the statements *)

(** The files after [_save_hash] ran, by how the write went
    (see [open_json_dump]). *)
Definition files_after_save (L : library) (e : env) (m : WebsiteChangeMonitor)
    (h : option string) (fs : gmap string file) : gmap string file :=
  match env_write e with
  | WriteOk => <[hash_file m := FileJson (hash_record L e m h)]> fs
  | WriteOpenFails => fs
  | WriteDumpFails => <[hash_file m := FileCorrupt]> fs
  end.

(** The lines [_save_hash] logs: none, unless the write raised. *)
Definition save_log_lines (e : env) : list log_record :=
  match env_write e with
  | WriteOk => []
  | WriteOpenFails | WriteDumpFails => [(ERROR, ErrorSavingHashFile OSError)]
  end.

(** What [_get_saved_hash] finds for a given state of the hash file. *)
Definition saved_hash_of (f : option file) : pyval :=
  match f with
  | Some (FileJson (PyDict items)) => default PyNone (assoc "hash" items)
  | _ => PyNone
  end.

(** The file name [__init__] derives from the address. *)
Definition hash_file_of (L : library) (url_ : string) : string :=
  "/tmp/website_hash_" ++ md5_hexdigest L url_ ++ ".json".

(** A monitor object for [sample_url] as [__init__] lays it out, with a
    given configuration and previous hash. *)
Definition sample_monitor (config previous : pyval) : WebsiteChangeMonitor :=
  mkMonitor sample_url 5 config
            (md5_hexdigest sample_library sample_url)
            (hash_file_of sample_library sample_url)
            previous.

(** Two runs of the check on a successful fetch with an empty body: with no
    previous hash at all, and with the digest of an earlier body in memory. *)
Definition empty_body_first_check : outcome bool * state :=
  check_for_changes sample_library (env_page "" 1)
    (sample_monitor PyNone PyNone, empty_world).

Definition empty_body_later_check : outcome bool * state :=
  check_for_changes sample_library (env_page "" 2)
    (sample_monitor PyNone (PyStr "sha256(A)"), empty_world).

(** An environment that configures email without credentials. *)
Definition sample_environ : gmap string string :=
  list_to_map
    [("WEBSITE_URL", sample_url); ("CHECK_INTERVAL", "5");
     ("EMAIL_SENDER", "monitor@example.com");
     ("EMAIL_RECIPIENT", "ops@example.com");
     ("SMTP_SERVER", "smtp.example.com")].

(** The [email_config] that [monitor_website] builds from [sample_environ]. *)
Definition sample_email_config : pyval :=
  PyDict [("sender", PyStr "monitor@example.com");
          ("recipient", PyStr "ops@example.com");
          ("smtp_server", PyStr "smtp.example.com");
          ("smtp_port", PyInt 587);
          ("use_tls", PyBool true);
          ("username", PyNone);
          ("password", PyNone)].

(** The same environment with a port that is no number, and one where it
    is the check interval that is no number. *)
Definition bad_port_environ : gmap string string :=
  <["SMTP_PORT" := "abc"]> sample_environ.

Definition bad_interval_environ : gmap string string :=
  <["CHECK_INTERVAL" := "abc"]> sample_environ.

(** A page that shows "A" at the first check and "B" at the second, with an
    SMTP server that fails at the given call (or not at all). *)
Definition page_changes (failure : option smtp_step) : list env :=
  [mkEnv (FetchText "A") WriteOk 1 failure;
   mkEnv (FetchText "B") WriteOk 2 failure].

(** ** Abbreviations used for the further properties *)

(** How many bodies of a sequence have a digest different from the one
    before them; [prev] is the digest known before the first body, if any
    (with none, the first body only sets the baseline). *)
Fixpoint count_changes (digest : string -> string) (prev : option string)
    (bodies : list string) : Z :=
  match bodies with
  | [] => 0
  | c :: cs =>
      (match prev with
       | Some p => if String.eqb (digest c) p then 0 else 1
       | None => 0
       end) + count_changes digest (Some (digest c)) cs
  end.

(** The digest in memory after a sequence of bodies. *)
Fixpoint last_digest (digest : string -> string) (prev : option string)
    (bodies : list string) : option string :=
  match bodies with
  | [] => prev
  | c :: cs => last_digest digest (Some (digest c)) cs
  end.

(** A machine on which the hash file of [sample_url] does not parse. *)
Definition corrupt_world : world :=
  mkWorld {[ hash_file_of sample_library sample_url := FileCorrupt ]}
          [] [] [] empty_status.

(** A second address, and an environment that names only a target. *)
Definition other_url : string := "https://example.org".

Definition bare_environ : gmap string string :=
  {[ "WEBSITE_URL" := sample_url ]}.

(** The step of the SMTP session an action belongs to. *)
Definition step_of_action (a : smtp_action) : smtp_step :=
  match a with
  | SMTP_connect _ _ => StepConnect
  | SMTP_starttls => StepStartTLS
  | SMTP_login _ _ => StepLogin
  | SMTP_send_message _ => StepSend
  | SMTP_quit => StepQuit
  end.

(** ** The server's answer behind a fetch

    Lines 70-72 of [_get_page_content]: [requests.get] either raises or gives
    a response; [response.raise_for_status()] raises [HTTPError] for a status
    from 400 to 599 and does nothing for any other status; then
    [response.text] is returned. *)
Inductive http_answer : Type :=
| Answer (status_code : Z) (text : string)
| NoAnswer (e : exn).

Definition raise_for_status (status_code : Z) : option exn :=
  if (400 <=? status_code) && (status_code <? 600) then Some HTTPError
  else None.

(** What the body of the [try] in [_get_page_content] makes of an answer. *)
Definition fetch_of_answer (a : http_answer) : fetch_result :=
  match a with
  | Answer status_code text =>
      match raise_for_status status_code with
      | Some x => FetchRaises x
      | None => FetchText text
      end
  | NoAnswer e => FetchRaises e
  end.

(** A changed page answered with status 300 (no redirect to follow), checked
    by a monitor that knows the digest of the earlier body, inside one pass of
    the loop. *)
Definition multiple_choices_iteration : outcome unit * state :=
  monitor_website_iteration sample_library 5
    (mkEnv (fetch_of_answer (Answer 300 "B")) WriteOk 2 None)
    (sample_monitor PyNone (PyStr "sha256(A)"), empty_world).

(** One pass of the loop in which the fetch raises a [ValueError]. *)
Definition raising_iteration : outcome unit * state :=
  monitor_website_iteration sample_library 5
    (mkEnv (FetchRaises ValueError) WriteOk 3 None)
    (sample_monitor PyNone (PyStr "sha256(A)"), empty_world).

(** ** Basic facts *)

Lemma truthy_str (c : string) : truthy (PyStr c) = true <-> c <> "".
Proof.
  simpl. destruct (String.eqb_spec c ""); simpl; split; intros; congruence.
Qed.

Lemma truthy_str_false (c : string) : truthy (PyStr c) = false <-> c = "".
Proof.
  simpl. destruct (String.eqb_spec c ""); simpl; split; intros; congruence.
Qed.

Lemma py_ne_same (h : string) : py_ne (Some h) (PyStr h) = false.
Proof. simpl. now rewrite String.eqb_refl. Qed.

Lemma py_ne_str (h f : string) : py_ne (Some h) (PyStr f) = true <-> h <> f.
Proof.
  simpl. destruct (String.eqb_spec h f); simpl; split; intros; congruence.
Qed.

Lemma same_but_smtp_refl (w : world) : same_but_smtp w w.
Proof.
  repeat split. exists []. now rewrite app_nil_r.
Qed.

Lemma same_but_smtp_trans (w1 w2 w3 : world) :
  same_but_smtp w1 w2 -> same_but_smtp w2 w3 -> same_but_smtp w1 w3.
Proof.
  intros (F1 & G1 & S1 & M1 & t1 & T1) (F2 & G2 & S2 & M2 & t2 & T2).
  repeat split; try congruence.
  exists (t1 ++ t2)%list. rewrite T2, T1. now rewrite app_assoc.
Qed.

Section NotifierFacts.

Context {A B : Type}.

Lemma quiet_ret (a : A) : quiet (ret a).
Proof.
  intros s. simpl. split; [reflexivity|]. split; [apply same_but_smtp_refl|].
  discriminate.
Qed.

Lemma quiet_raise (x : exn) : is_Exception x = true -> quiet (@raise state A x).
Proof.
  intros Hx s. simpl. split; [reflexivity|]. split; [apply same_but_smtp_refl|].
  intros y [= <-]. exact Hx.
Qed.

Lemma quiet_bind (c : M state A) (k : A -> M state B) :
  quiet c -> (forall a, quiet (k a)) -> quiet (bind c k).
Proof.
  intros Hc Hk s. unfold bind. specialize (Hc s).
  destruct (c s) as [[a|x] s1]; simpl in *.
  - destruct Hc as (O1 & W1 & _). specialize (Hk a s1).
    destruct Hk as (O2 & W2 & R2).
    split; [congruence|]. split; [eapply same_but_smtp_trans; eauto|]. exact R2.
  - destruct Hc as (O1 & W1 & R1). repeat split; auto; try apply W1.
    intros y [= <-]. now apply R1.
Qed.

Lemma quiet_until_sent_bind (c : M state A) (k : A -> M state B) :
  quiet c -> (forall a, quiet_until_sent (k a)) -> quiet_until_sent (bind c k).
Proof.
  intros Hc Hk s. unfold bind. specialize (Hc s).
  destruct (c s) as [[a|x] s1]; simpl in *.
  - destruct Hc as (O1 & (F1 & G1 & S1 & M1 & t1 & T1) & _).
    specialize (Hk a s1). destruct Hk as (O2 & F2 & S2 & M2 & (t2 & T2) & R2).
    repeat split; try congruence.
    + exists (t1 ++ t2)%list. rewrite T2, T1. now rewrite app_assoc.
    + destruct (fst (k a s1)); [congruence|].
      destruct R2 as [E2 G2]. split; [exact E2|congruence].
  - destruct Hc as (O1 & (F1 & G1 & S1 & M1 & t1 & T1) & R1).
    repeat split; auto. exists t1. exact T1.
Qed.

End NotifierFacts.

Lemma quiet_getitem (d : pyval) (k : string) : quiet (getitem d k).
Proof.
  unfold getitem. destruct d; try (now apply quiet_raise).
  destruct (assoc k items); [apply quiet_ret | now apply quiet_raise].
Qed.

Lemma quiet_dict_get (d : pyval) (k : string) (v : pyval) :
  quiet (dict_get d k v).
Proof.
  unfold dict_get. destruct d; try (now apply quiet_raise). apply quiet_ret.
Qed.

Lemma quiet_contains (d : pyval) (k : string) : quiet (contains d k).
Proof.
  unfold contains. destruct d; try (now apply quiet_raise); apply quiet_ret.
Qed.

Lemma quiet_smtp_call (e : env) (step : smtp_step) (a : smtp_action) :
  quiet (lift (smtp_call e step a)).
Proof.
  intros [m w]. unfold lift, smtp_call, bind, modify. simpl.
  assert (W : same_but_smtp w (add_smtp a w)).
  { repeat split. now exists [a]. }
  destruct (env_smtp_error e) as [s|]; [destruct (smtp_step_eqb s step)|];
    simpl; (split; [reflexivity|]); (split; [exact W|]);
    try discriminate; intros y [= <-]; reflexivity.
Qed.

Lemma quiet_until_sent_log : quiet_until_sent (lift (log INFO EmailSent)).
Proof.
  intros [m w]. unfold lift, log, modify. simpl.
  repeat split. exists []. now rewrite app_nil_r.
Qed.

Create HintDb notifier.
#[local] Hint Resolve quiet_getitem quiet_dict_get quiet_contains
  quiet_smtp_call quiet_until_sent_log : notifier.
#[local] Hint Extern 1 (quiet (ret _)) => apply quiet_ret : notifier.

Ltac quiet_step :=
  first
    [ apply quiet_until_sent_bind; [| intros ?]
    | apply quiet_bind; [| intros ?]
    | match goal with
      | |- quiet (if ?b then _ else _) => destruct b
      | |- quiet_until_sent (if ?b then _ else _) => destruct b
      end
    | solve [auto with notifier] ].

(** ** The methods, one at a time *)

Section MethodFacts.

Variable L : library.

(** [_save_hash] never raises and leaves the object alone; what it does to
    the file depends on how the write goes. *)
Lemma save_hash_run (e : env) (h : option string) (m : WebsiteChangeMonitor)
    (w : world) :
  exists w', _save_hash L e h (m, w) = (Returns tt, (m, w')) /\
    smtp_trace w' = smtp_trace w /\ sleeps w' = sleeps w /\
    monitor_status w' = monitor_status w /\
    match env_write e with
    | WriteOk =>
        files w' = <[hash_file m := FileJson (hash_record L e m h)]> (files w) /\
        logs w' = logs w
    | WriteOpenFails =>
        files w' = files w /\
        logs w' = (logs w ++ [(ERROR, ErrorSavingHashFile OSError)])%list
    | WriteDumpFails =>
        files w' = <[hash_file m := FileCorrupt]> (files w) /\
        logs w' = (logs w ++ [(ERROR, ErrorSavingHashFile OSError)])%list
    end.
Proof.
  unfold _save_hash, bind, this, try_except, lift, open_json_dump.
  destruct (env_write e); simpl; eexists; split; try reflexivity; simpl; auto.
Qed.

(** The body of the [try] in [_send_email_notification]. *)
Lemma notification_body_quiet (e : env) (m : WebsiteChangeMonitor) :
  quiet_until_sent
    (let config := email_config m in
     let body := "Change detected on " ++ url m ++ " at "
                 ++ strftime L (env_now e) in
     let subject := "Website Change Notification: " ++ url m in
     bind (getitem config "sender") (fun sender =>
     bind (getitem config "recipient") (fun recipient =>
     let msg := MIMEText body subject sender recipient in
     bind (getitem config "smtp_server") (fun host =>
     bind (getitem config "smtp_port") (fun port =>
     bind (lift (smtp_call e StepConnect (SMTP_connect host port))) (fun _ =>
     bind (dict_get config "use_tls" (PyBool false)) (fun use_tls =>
     bind (if truthy use_tls then lift (smtp_call e StepStartTLS SMTP_starttls)
           else ret tt) (fun _ =>
     bind (contains config "username") (fun has_user =>
     bind (if has_user then contains config "password" else ret false)
          (fun has_password =>
     bind (if has_user && has_password then
             bind (getitem config "username") (fun username =>
             bind (getitem config "password") (fun password =>
             lift (smtp_call e StepLogin (SMTP_login username password))))
           else ret tt) (fun _ =>
     bind (lift (smtp_call e StepSend (SMTP_send_message msg))) (fun _ =>
     bind (lift (smtp_call e StepQuit SMTP_quit)) (fun _ =>
     lift (log INFO EmailSent)))))))))))))).
Proof.
  cbv zeta. repeat quiet_step.
Qed.

(** A notification attempt never raises, never touches the object or the
    files, and ends in exactly one line: sent, or failed. *)
Lemma send_email_notification_run (e : env) (m : WebsiteChangeMonitor)
    (w : world) :
  truthy (email_config m) = true ->
  exists w', _send_email_notification L e (m, w) = (Returns tt, (m, w')) /\
    files w' = files w /\ sleeps w' = sleeps w /\
    monitor_status w' = monitor_status w /\
    (exists t, smtp_trace w' = (smtp_trace w ++ t)%list) /\
    (logs w' = (logs w ++ [(INFO, EmailSent)])%list \/
     exists x, logs w' = (logs w ++ [(ERROR, EmailFailed x)])%list).
Proof.
  intros Hc. unfold _send_email_notification.
  unfold bind at 1. unfold this at 1. cbn [fst snd]. rewrite Hc. cbn [negb].
  unfold try_except.
  pose proof (notification_body_quiet e m (m, w)) as H. cbv zeta in H.
  match type of H with context [fst (snd (?c (m, w)))] => set (run := c (m, w)) in * end.
  destruct run as [[[]|x] [m1 w1]]; cbn [fst snd] in H.
  - destruct H as (-> & F & S & St & T & G). exists w1. repeat split; auto.
  - destruct H as (-> & F & S & St & T & E & G). rewrite E.
    unfold lift, log, modify. cbn [fst snd].
    eexists. split; [reflexivity|]. cbn [files sleeps monitor_status smtp_trace logs add_log].
    repeat split; auto. right. exists x. now rewrite G.
Qed.

End MethodFacts.

Section CheckFacts.

Variable L : library.

Lemma save_hash_effect (e : env) (h : option string) (m : WebsiteChangeMonitor)
    (w : world) :
  exists w', _save_hash L e h (m, w) = (Returns tt, (m, w')) /\
    files w' = files_after_save L e m h (files w) /\
    logs w' = (logs w ++ save_log_lines e)%list /\
    smtp_trace w' = smtp_trace w /\ sleeps w' = sleeps w /\
    monitor_status w' = monitor_status w.
Proof.
  destruct (save_hash_run L e h m w) as (w' & R & T & S & St & H).
  exists w'. unfold files_after_save, save_log_lines.
  destruct (env_write e); destruct H as [F G];
    repeat split; auto; rewrite G; now rewrite ?app_nil_r.
Qed.

(** An exception that is no [RequestException] leaves [_get_page_content]
    and so the whole check. *)
Lemma check_raises (e : env) (m : WebsiteChangeMonitor) (w : world) (x : exn) :
  env_fetch e = FetchRaises x -> is_RequestException x = false ->
  check_for_changes L e (m, w) =
    (Raised x, (m, add_log (INFO, Checking (url m)) w)).
Proof.
  intros Hf Hx.
  unfold check_for_changes, bind, this, lift, _get_page_content, try_except.
  simpl. rewrite Hf. simpl. rewrite Hx. reflexivity.
Qed.

Lemma check_fetch_failed (e : env) (m : WebsiteChangeMonitor) (w : world)
    (x : exn) :
  env_fetch e = FetchRaises x -> is_RequestException x = true ->
  check_for_changes L e (m, w) =
    (Returns false,
     (m, add_log (WARNING, FailedToGetContent)
           (add_log (ERROR, ErrorFetching x)
              (add_log (INFO, Checking (url m)) w)))).
Proof.
  intros Hf Hx.
  unfold check_for_changes, bind, this, lift, _get_page_content, try_except.
  simpl. rewrite Hf. simpl. rewrite Hx. reflexivity.
Qed.

Lemma check_empty (e : env) (m : WebsiteChangeMonitor) (w : world) :
  env_fetch e = FetchText "" ->
  check_for_changes L e (m, w) =
    (Returns false,
     (m, add_log (WARNING, FailedToGetContent)
           (add_log (INFO, Checking (url m)) w))).
Proof.
  intros Hf.
  unfold check_for_changes, bind, this, lift, _get_page_content, try_except.
  simpl. rewrite Hf. reflexivity.
Qed.

Lemma check_first_run (e : env) (m : WebsiteChangeMonitor) (w : world)
    (c : string) :
  env_fetch e = FetchText c -> c <> "" -> truthy (previous_hash m) = false ->
  exists w',
    check_for_changes L e (m, w) =
      (Returns false, (set_previous_hash (PyStr (sha256_hexdigest L c)) m, w')) /\
    files w' = files_after_save L e m (Some (sha256_hexdigest L c)) (files w) /\
    logs w' = (logs w ++ [(INFO, Checking (url m)); (INFO, FirstRun (url m))]
                 ++ save_log_lines e)%list /\
    smtp_trace w' = smtp_trace w /\ sleeps w' = sleeps w /\
    monitor_status w' = monitor_status w.
Proof.
  intros Hf Hc Hp. apply truthy_str in Hc. simpl in Hc.
  destruct (save_hash_effect e (Some (sha256_hexdigest L c)) m
              (add_log (INFO, FirstRun (url m))
                 (add_log (INFO, Checking (url m)) w)))
    as (w' & R & F & G & T & S & St).
  exists w'. split.
  - unfold check_for_changes, bind, this, lift, _get_page_content, try_except.
    simpl. rewrite Hf. simpl. rewrite Hc. simpl. rewrite Hp. simpl.
    rewrite R. reflexivity.
  - repeat split; auto. rewrite G. simpl. now rewrite <- !app_assoc.
Qed.

Lemma check_no_change (e : env) (m : WebsiteChangeMonitor) (w : world)
    (c : string) :
  env_fetch e = FetchText c -> c <> "" -> truthy (previous_hash m) = true ->
  py_ne (Some (sha256_hexdigest L c)) (previous_hash m) = false ->
  check_for_changes L e (m, w) =
    (Returns false,
     (m, add_log (INFO, NoChanges (url m))
           (add_log (INFO, Checking (url m)) w))).
Proof.
  intros Hf Hc Hp Hne. apply truthy_str in Hc. simpl in Hc.
  unfold check_for_changes, bind, this, lift, _get_page_content, try_except.
  simpl. rewrite Hf. simpl. rewrite Hc. simpl. rewrite Hp. simpl.
  unfold py_ne in Hne. rewrite Hne. reflexivity.
Qed.

(** On the changed branch everything up to the notifier is settled: the new
    hash is saved and assigned, and what remains is the notification. *)
Lemma check_changed_eq (e : env) (m : WebsiteChangeMonitor) (w : world)
    (c : string) :
  env_fetch e = FetchText c -> c <> "" -> truthy (previous_hash m) = true ->
  py_ne (Some (sha256_hexdigest L c)) (previous_hash m) = true ->
  exists w2,
    check_for_changes L e (m, w) =
      bind (if truthy (email_config m) then _send_email_notification L e
            else ret tt) (fun _ => ret true)
        (set_previous_hash (PyStr (sha256_hexdigest L c)) m, w2) /\
    files w2 = files_after_save L e m (Some (sha256_hexdigest L c)) (files w) /\
    logs w2 = (logs w
               ++ [(INFO, Checking (url m)); (INFO, ChangeDetected (url m))]
               ++ save_log_lines e
               ++ [(INFO, ChangeDetectedAt (url m) (strftime L (env_now e)))])%list /\
    smtp_trace w2 = smtp_trace w /\ sleeps w2 = sleeps w /\
    monitor_status w2 = monitor_status w.
Proof.
  intros Hf Hc Hp Hne. apply truthy_str in Hc. simpl in Hc.
  set (h := sha256_hexdigest L c) in *.
  destruct (save_hash_effect e (Some h) m
              (add_log (INFO, ChangeDetected (url m))
                 (add_log (INFO, Checking (url m)) w)))
    as (w1 & R & F & G & T & S & St).
  exists (add_log (INFO, ChangeDetectedAt (url m) (strftime L (env_now e))) w1).
  split.
  { unfold check_for_changes, bind, this, lift, _get_page_content, try_except.
    simpl. rewrite Hf. simpl. fold h. rewrite Hc. simpl. rewrite Hp. simpl.
    unfold py_ne in Hne. rewrite Hne. simpl. rewrite R. reflexivity. }
  split; [exact F|]. split.
  { simpl. rewrite G. simpl. now rewrite <- !app_assoc. }
  split; [exact T|]. split; [exact S|exact St].
Qed.

Lemma check_changed (e : env) (m : WebsiteChangeMonitor) (w : world)
    (c : string) :
  env_fetch e = FetchText c -> c <> "" -> truthy (previous_hash m) = true ->
  py_ne (Some (sha256_hexdigest L c)) (previous_hash m) = true ->
  exists w' t sent,
    check_for_changes L e (m, w) =
      (Returns true, (set_previous_hash (PyStr (sha256_hexdigest L c)) m, w')) /\
    files w' = files_after_save L e m (Some (sha256_hexdigest L c)) (files w) /\
    logs w' = (logs w
                 ++ [(INFO, Checking (url m)); (INFO, ChangeDetected (url m))]
                 ++ save_log_lines e
                 ++ [(INFO, ChangeDetectedAt (url m) (strftime L (env_now e)))]
                 ++ sent)%list /\
    (if truthy (email_config m)
     then sent = [(INFO, EmailSent)] \/ exists x, sent = [(ERROR, EmailFailed x)]
     else sent = [] /\ t = []) /\
    smtp_trace w' = (smtp_trace w ++ t)%list /\ sleeps w' = sleeps w /\
    monitor_status w' = monitor_status w.
Proof.
  intros Hf Hc Hp Hne.
  destruct (check_changed_eq e m w c Hf Hc Hp Hne)
    as (w2 & E & F2 & G2 & T2 & S2 & St2).
  set (h := sha256_hexdigest L c) in *.
  set (m' := set_previous_hash (PyStr h) m) in *.
  rewrite E. clear E. unfold bind.
  destruct (truthy (email_config m)) eqn:Hcfg.
  - destruct (send_email_notification_run L e m' w2 Hcfg)
      as (w3 & R3 & F3 & S3 & St3 & (t & T3) & G3).
    rewrite R3. exists w3, t.
    assert (X : exists sent, logs w3 = (logs w2 ++ sent)%list /\
              (sent = [(INFO, EmailSent)] \/
               exists x, sent = [(ERROR, EmailFailed x)])).
    { destruct G3 as [G3 | [x G3]]; eexists; split; eauto. }
    destruct X as (sent & G4 & Hsent). exists sent.
    split; [reflexivity|]. split; [congruence|].
    split; [rewrite G4, G2; now rewrite <- !app_assoc|].
    split; [exact Hsent|]. split; [congruence|]. split; congruence.
  - exists w2, [], []. simpl.
    split; [reflexivity|]. split; [exact F2|].
    split; [rewrite G2; reflexivity|].
    split; [auto|]. split; [now rewrite app_nil_r|]. split; assumption.
Qed.

End CheckFacts.

(** ** The log and the outcomes read off it *)

Lemma reported_app (w w' : world) (ls : list log_record) :
  logs w' = (logs w ++ ls)%list ->
  reported w' =
    (reported w ++ omap (fun r => outcome_of_message (snd r)) ls)%list.
Proof.
  intros H. unfold reported. rewrite H. apply omap_app.
Qed.

Lemma reported_add_log (r : log_record) (w : world) :
  reported (add_log r w) =
    (reported w ++ match outcome_of_message (snd r) with
                   | Some o => [o]
                   | None => []
                   end)%list.
Proof.
  rewrite (reported_app w (add_log r w) [r]) by reflexivity.
  simpl. destruct (outcome_of_message (snd r)); reflexivity.
Qed.

Lemma save_log_lines_report_nothing (e : env) :
  omap (fun r => outcome_of_message (snd r)) (save_log_lines e) = [].
Proof. unfold save_log_lines. destruct (env_write e); reflexivity. Qed.

Lemma count_attempts_app (l1 l2 : list log_record) :
  count_attempts (l1 ++ l2) = (count_attempts l1 + count_attempts l2)%nat.
Proof.
  unfold count_attempts. now rewrite List.filter_app, length_app.
Qed.

Lemma notification_attempts_app (w w' : world) (ls : list log_record) :
  logs w' = (logs w ++ ls)%list ->
  notification_attempts w' = (notification_attempts w + count_attempts ls)%nat.
Proof.
  intros H. unfold notification_attempts. rewrite H. apply count_attempts_app.
Qed.

Lemma notification_attempts_add_log (r : log_record) (w : world) :
  notification_attempts (add_log r w) =
    (notification_attempts w + if is_notification_line r then 1 else 0)%nat.
Proof.
  rewrite (notification_attempts_app w (add_log r w) [r]) by reflexivity.
  unfold count_attempts. simpl. now destruct (is_notification_line r).
Qed.

Lemma save_log_lines_no_attempt (e : env) :
  count_attempts (save_log_lines e) = 0%nat.
Proof. unfold save_log_lines. destruct (env_write e); reflexivity. Qed.

(** ** Every way a check can end *)

Section CheckCases.

Variable L : library.

(** A check either raises what the fetch raised outside [RequestException],
    having only logged that it started, or returns after exactly one of the
    four branch lines, with [True] on the changed branch alone.  It never
    sleeps and never touches [monitor_status]. *)
Lemma check_cases (e : env) (m : WebsiteChangeMonitor) (w : world) :
  (exists x,
     env_fetch e = FetchRaises x /\ is_RequestException x = false /\
     check_for_changes L e (m, w) =
       (Raised x, (m, add_log (INFO, Checking (url m)) w))) \/
  (exists b m' w' o,
     check_for_changes L e (m, w) = (Returns b, (m', w')) /\
     reported w' = (reported w ++ [o])%list /\
     (b = true <-> o = Changed) /\
     sleeps w' = sleeps w /\ monitor_status w' = monitor_status w).
Proof.
  destruct (env_fetch e) as [c|x] eqn:Hf.
  - right. destruct (String.eqb_spec c "") as [->|Hc].
    + exists false, m. eexists. exists FetchFailed.
      split; [apply (check_empty L e m w Hf)|].
      rewrite !reported_add_log. simpl. rewrite app_nil_r.
      split; [reflexivity|]. split; [split; discriminate|]. split; reflexivity.
    + destruct (truthy (previous_hash m)) eqn:Hp.
      * destruct (py_ne (Some (sha256_hexdigest L c)) (previous_hash m)) eqn:Hne.
        -- destruct (check_changed L e m w c Hf Hc Hp Hne)
             as (w' & t & sent & R & _ & G & Hs & _ & S & St).
           exists true. eexists. exists w', Changed. split; [exact R|].
           split; [|split; [tauto|split; assumption]].
           rewrite (reported_app w w' _ G), !omap_app,
             save_log_lines_report_nothing.
           destruct (truthy (email_config m)).
           ++ destruct Hs as [-> | [y ->]]; reflexivity.
           ++ destruct Hs as [-> _]. reflexivity.
        -- exists false, m. eexists. exists NoChange.
           split; [apply (check_no_change L e m w c Hf Hc Hp Hne)|].
           rewrite !reported_add_log. simpl. rewrite app_nil_r.
           split; [reflexivity|]. split; [split; discriminate|].
           split; reflexivity.
      * destruct (check_first_run L e m w c Hf Hc Hp)
          as (w' & R & _ & G & _ & S & St).
        exists false. eexists. exists w', Indeterminate. split; [exact R|].
        rewrite (reported_app w w' _ G), omap_app, save_log_lines_report_nothing.
        split; [reflexivity|]. split; [split; discriminate|]. split; assumption.
  - destruct (is_RequestException x) eqn:Hx.
    + right. exists false, m. eexists. exists FetchFailed.
      split; [apply (check_fetch_failed L e m w x Hf Hx)|].
      rewrite !reported_add_log. simpl. rewrite !app_nil_r.
      split; [reflexivity|]. split; [split; discriminate|]. split; reflexivity.
    + left. exists x. split; [reflexivity|]. split; [exact Hx|].
      apply (check_raises L e m w x Hf Hx).
Qed.

End CheckCases.

(** ** One pass of the loop in [monitor_website] *)

Section IterationFacts.

Variable L : library.

(** An iteration whose check returned ends in one sleep: the configured
    interval, or the 60 second fallback when [time.sleep] rejects it. *)
Lemma iteration_after_return (ci : Z) (e : env) (m m' : WebsiteChangeMonitor)
    (w w' : world) (b : bool) :
  check_for_changes L e (m, w) = (Returns b, (m', w')) ->
  exists w'',
    monitor_website_iteration L ci e (m, w) = (Returns tt, (m', w'')) /\
    files w'' = files w' /\ smtp_trace w'' = smtp_trace w' /\
    reported w'' = reported w' /\
    notification_attempts w'' = notification_attempts w' /\
    sleeps w'' = (sleeps w' ++ [if (ci <? 0) || (9223372036 <? ci)
                                then 60 else ci])%list /\
    last_check_time (monitor_status w'') = Some (env_now e) /\
    changes_detected (monitor_status w'') =
      changes_detected (monitor_status w') + (if b then 1 else 0) /\
    is_running (monitor_status w'') = is_running (monitor_status w') /\
    target_url (monitor_status w'') = target_url (monitor_status w') /\
    status_check_interval (monitor_status w'') =
      status_check_interval (monitor_status w').
Proof.
  intros R.
  unfold monitor_website_iteration, try_except, bind at 1. rewrite R.
  unfold bind, lift, update_monitor_status, update_status, bind, modify,
    log, time_sleep, modify, raise, ret.
  destruct b; destruct (ci <? 0) eqn:Hci;
    try destruct (9223372036 <? ci) eqn:Hci'; cbn -[Z.add];
    eexists; (split; [reflexivity|]); cbn -[Z.add];
    unfold reported, notification_attempts; cbn -[Z.add];
    rewrite ?omap_app, ?count_attempts_app; cbn -[Z.add];
    rewrite ?app_nil_r; repeat split; try reflexivity;
    unfold count_attempts; rewrite ?List.filter_app, ?length_app; simpl; lia.
Qed.

Lemma iteration_after_raise (ci : Z) (e : env) (m m' : WebsiteChangeMonitor)
    (w w' : world) (x : exn) :
  check_for_changes L e (m, w) = (Raised x, (m', w')) ->
  is_Exception x = true ->
  monitor_website_iteration L ci e (m, w) =
    (Returns tt,
     (m', add_sleep 60 (add_log (ERROR, ErrorInMonitoringLoop x) w'))).
Proof.
  intros R Hx.
  unfold monitor_website_iteration, try_except, bind at 1. rewrite R.
  rewrite Hx. reflexivity.
Qed.

End IterationFacts.

(** ** The change check *)

Section CheckClaims.

Variable L : library.

(** C4, as the code has it.  When the fetch raises a [RequestException]
    (no answer because of a connection error or a timeout, or an answer whose
    status, from 400 to 599, [raise_for_status] rejects), the check returns
    [False] on the failed-fetch branch: the object (and so the in-memory
    previous hash) is unchanged, no file is written, no SMTP call is made,
    and the loop iteration around it leaves [changes_detected] as it was. *)
Theorem C4_fetch_failure_changes_nothing (a : http_answer) (e : env)
    (m : WebsiteChangeMonitor) (w : world) (ci : Z) :
  env_fetch e = fetch_of_answer a ->
  match a with
  | NoAnswer x => is_RequestException x = true
  | Answer status_code _ => 400 <= status_code < 600
  end ->
  (exists w',
     check_for_changes L e (m, w) = (Returns false, (m, w')) /\
     reported w' = (reported w ++ [FetchFailed])%list /\
     files w' = files w /\ smtp_trace w' = smtp_trace w /\
     monitor_status w' = monitor_status w) /\
  (exists w'',
     monitor_website_iteration L ci e (m, w) = (Returns tt, (m, w'')) /\
     files w'' = files w /\
     changes_detected (monitor_status w'') =
       changes_detected (monitor_status w)).
Proof.
  intros Ha Hfail.
  assert (Hx : exists x, env_fetch e = FetchRaises x /\
                         is_RequestException x = true).
  { destruct a as [status_code text | x]; cbn in Ha.
    - exists HTTPError. split; [|reflexivity]. rewrite Ha.
      unfold raise_for_status.
      assert (H1 : (400 <=? status_code) = true) by (apply Z.leb_le; lia).
      assert (H2 : (status_code <? 600) = true) by (apply Z.ltb_lt; lia).
      now rewrite H1, H2.
    - exists x. split; assumption. }
  destruct Hx as (x & Hf & Hx).
  pose proof (check_fetch_failed L e m w x Hf Hx) as R.
  split.
  - eexists. split; [exact R|]. rewrite !reported_add_log. simpl.
    rewrite !app_nil_r. repeat split.
  - destruct (iteration_after_return L ci e m m w _ false R)
      as (w'' & R' & F & _ & _ & _ & _ & _ & C & _).
    exists w''. split; [exact R'|]. split; [exact F|]. rewrite C. simpl. lia.
Qed.

(** C10.  A fetch that succeeds with an empty body is handled on the
    failed-fetch branch: the check returns [False], the object, the files and
    the SMTP trace are untouched, and no digest enters the result (it is the
    same whatever the library's hash functions are).  Against a fetch that
    raised, the only difference is the line [_get_page_content] logged. *)
Theorem C10_empty_body_is_a_failed_fetch (e : env) (m : WebsiteChangeMonitor)
    (w : world) :
  env_fetch e = FetchText "" ->
  (exists w',
     check_for_changes L e (m, w) = (Returns false, (m, w')) /\
     reported w' = (reported w ++ [FetchFailed])%list /\
     files w' = files w /\ smtp_trace w' = smtp_trace w /\
     notification_attempts w' = notification_attempts w /\
     monitor_status w' = monitor_status w) /\
  (forall L', check_for_changes L' e (m, w) = check_for_changes L e (m, w)) /\
  (forall e' x, env_fetch e' = FetchRaises x -> is_RequestException x = true ->
     fst (check_for_changes L e' (m, w)) = fst (check_for_changes L e (m, w)) /\
     fst (snd (check_for_changes L e' (m, w))) =
       fst (snd (check_for_changes L e (m, w))) /\
     files (snd (snd (check_for_changes L e' (m, w)))) =
       files (snd (snd (check_for_changes L e (m, w)))) /\
     reported (snd (snd (check_for_changes L e' (m, w)))) =
       reported (snd (snd (check_for_changes L e (m, w))))).
Proof.
  intros Hf. split; [|split].
  - eexists. split; [apply (check_empty L e m w Hf)|].
    rewrite !reported_add_log, !notification_attempts_add_log. simpl.
    rewrite !app_nil_r, !Nat.add_0_r. repeat split.
  - intros L'. now rewrite !check_empty.
  - intros e' x Hf' Hx.
    rewrite (check_fetch_failed L e' m w x Hf' Hx), (check_empty L e m w Hf).
    cbn [fst snd]. rewrite !reported_add_log. simpl. rewrite !app_nil_r.
    repeat split.
Qed.

(** C2, as the code has it.  With no previous hash in memory, a check that
    fetches a non-empty body returns [False] on the first-run branch (never
    [True]): it calls [_save_hash] with the digest of the body, makes that
    digest the previous hash, makes no notification attempt and no SMTP call;
    when the write succeeds a later load finds that digest.  The loop
    iteration around it leaves [changes_detected] as it was. *)
Theorem C2_first_check_seeds_baseline (e : env) (m : WebsiteChangeMonitor)
    (w : world) (c : string) (ci : Z) :
  truthy (previous_hash m) = false ->
  env_fetch e = FetchText c -> c <> "" ->
  exists w' w'',
    check_for_changes L e (m, w) =
      (Returns false, (set_previous_hash (PyStr (sha256_hexdigest L c)) m, w')) /\
    reported w' = (reported w ++ [Indeterminate])%list /\
    files w' = files_after_save L e m (Some (sha256_hexdigest L c)) (files w) /\
    (env_write e = WriteOk ->
       saved_hash_of (files w' !! hash_file m) = PyStr (sha256_hexdigest L c)) /\
    smtp_trace w' = smtp_trace w /\
    notification_attempts w' = notification_attempts w /\
    monitor_website_iteration L ci e (m, w) =
      (Returns tt, (set_previous_hash (PyStr (sha256_hexdigest L c)) m, w'')) /\
    changes_detected (monitor_status w'') = changes_detected (monitor_status w).
Proof.
  intros Hp Hf Hc.
  destruct (check_first_run L e m w c Hf Hc Hp)
    as (w' & R & F & G & T & S & St).
  destruct (iteration_after_return L ci e m _ w w' false R)
    as (w'' & R' & _ & _ & _ & _ & _ & _ & C & _).
  exists w', w''. split; [exact R|].
  split.
  { rewrite (reported_app w w' _ G), omap_app, save_log_lines_report_nothing.
    reflexivity. }
  split; [exact F|]. split.
  { intros Hw. rewrite F. unfold files_after_save. rewrite Hw.
    rewrite lookup_insert_eq. reflexivity. }
  split; [exact T|]. split.
  { rewrite (notification_attempts_app w w' _ G), count_attempts_app.
    rewrite save_log_lines_no_attempt. unfold count_attempts. simpl. lia. }
  split; [exact R'|]. rewrite C, St. simpl. lia.
Qed.

(** C3, as the code has it.  With a previous hash [F] in memory and a
    non-empty body fetched: if the digest of the body is [F] the check returns
    [False] on the no-change branch and writes nothing; otherwise it returns
    [True], calls [_save_hash] with the new digest, makes it the previous
    hash, and makes exactly one notification attempt when an email
    configuration is present and none (no SMTP call either) when it is not. *)
Theorem C3_compare_with_previous (e : env) (m : WebsiteChangeMonitor)
    (w : world) (c F : string) :
  previous_hash m = PyStr F -> F <> "" ->
  env_fetch e = FetchText c -> c <> "" ->
  (sha256_hexdigest L c = F ->
     exists w',
       check_for_changes L e (m, w) = (Returns false, (m, w')) /\
       reported w' = (reported w ++ [NoChange])%list /\
       files w' = files w /\ smtp_trace w' = smtp_trace w /\
       notification_attempts w' = notification_attempts w) /\
  (sha256_hexdigest L c <> F ->
     exists w',
       check_for_changes L e (m, w) =
         (Returns true,
          (set_previous_hash (PyStr (sha256_hexdigest L c)) m, w')) /\
       reported w' = (reported w ++ [Changed])%list /\
       files w' =
         files_after_save L e m (Some (sha256_hexdigest L c)) (files w) /\
       (env_write e = WriteOk ->
          saved_hash_of (files w' !! hash_file m)
            = PyStr (sha256_hexdigest L c)) /\
       notification_attempts w' =
         (notification_attempts w
          + (if truthy (email_config m) then 1 else 0))%nat /\
       (truthy (email_config m) = false -> smtp_trace w' = smtp_trace w)).
Proof.
  intros Hp HF Hf Hc.
  assert (Ht : truthy (previous_hash m) = true)
    by (rewrite Hp; now apply truthy_str).
  split.
  - intros Heq.
    assert (Hne : py_ne (Some (sha256_hexdigest L c)) (previous_hash m) = false)
      by (rewrite Hp, Heq; apply py_ne_same).
    eexists. split; [apply (check_no_change L e m w c Hf Hc Ht Hne)|].
    rewrite !reported_add_log, !notification_attempts_add_log. simpl.
    rewrite !app_nil_r, !Nat.add_0_r. repeat split.
  - intros Hneq.
    assert (Hne : py_ne (Some (sha256_hexdigest L c)) (previous_hash m) = true)
      by (rewrite Hp; now apply py_ne_str).
    destruct (check_changed L e m w c Hf Hc Ht Hne)
      as (w' & t & sent & R & F' & G & Hs & T & S & St).
    exists w'. split; [exact R|].
    assert (Hsent :
      omap (fun r => outcome_of_message (snd r)) sent = [] /\
      count_attempts sent = (if truthy (email_config m) then 1 else 0)%nat).
    { destruct (truthy (email_config m)).
      - destruct Hs as [-> | [x ->]]; split; reflexivity.
      - destruct Hs as [-> _]. split; reflexivity. }
    destruct Hsent as [Ho Hn].
    split.
    { rewrite (reported_app w w' _ G), !omap_app, save_log_lines_report_nothing.
      rewrite Ho. reflexivity. }
    split; [exact F'|]. split.
    { intros Hw. rewrite F'. unfold files_after_save. rewrite Hw.
      rewrite lookup_insert_eq. reflexivity. }
    split.
    { rewrite (notification_attempts_app w w' _ G), !count_attempts_app.
      rewrite save_log_lines_no_attempt, Hn. unfold count_attempts. simpl.
      lia. }
    intros Hcfg. rewrite Hcfg in Hs. destruct Hs as [_ ->].
    rewrite T. now rewrite app_nil_r.
Qed.

(** C1, as the code has it.  [check_for_changes] returns a boolean.  Every
    call that returns has taken exactly one of the four branches, and the
    value is [True] exactly on the changed branch; the other three all give
    [False].  The call raises only what the fetch raised outside
    [RequestException]. *)
Theorem C1_result_is_a_boolean (e : env) (m : WebsiteChangeMonitor) (w : world) :
  match check_for_changes L e (m, w) with
  | (Returns b, (_, w')) =>
      exists o, reported w' = (reported w ++ [o])%list /\
                (b = true <-> o = Changed)
  | (Raised x, _) =>
      env_fetch e = FetchRaises x /\ is_RequestException x = false
  end.
Proof.
  destruct (check_cases L e m w)
    as [(x & Hf & Hx & R) | (b & m' & w' & o & R & G & Hb & _)]; rewrite R.
  - split; assumption.
  - exists o. split; assumption.
Qed.

End CheckClaims.

(** ** The check on concrete inputs *)

Lemma C4_fetch_failure_witness :
  env_fetch (mkEnv (fetch_of_answer (Answer 503 "busy")) WriteOk 1 None)
    = fetch_of_answer (Answer 503 "busy") /\
  400 <= 503 < 600 /\
  exists w',
    check_for_changes sample_library
      (mkEnv (fetch_of_answer (Answer 503 "busy")) WriteOk 1 None)
      (sample_monitor PyNone (PyStr "sha256(A)"), empty_world) =
      (Returns false, (sample_monitor PyNone (PyStr "sha256(A)"), w')) /\
    files w' = files empty_world.
Proof.
  split; [reflexivity|]. split; [lia|].
  destruct (C4_fetch_failure_changes_nothing sample_library
              (Answer 503 "busy")
              (mkEnv (fetch_of_answer (Answer 503 "busy")) WriteOk 1 None)
              (sample_monitor PyNone (PyStr "sha256(A)")) empty_world
              5 eq_refl ltac:(cbn; lia)) as [(w' & R & _ & F & _) _].
  exists w'. split; assumption.
Defined.

(** C4 as stated fails on an answer whose status is outside 200-299 but also
    outside 400-599: [raise_for_status] lets status 300 pass, so the body is
    hashed like any other.  Here the check takes the changed branch: the
    previous hash is replaced, the hash file is written and the loop counts a
    change. *)
Lemma C4_counterexample_status_300 :
  ~ (200 <= 300 < 300) /\
  raise_for_status 300 = None /\
  fetch_of_answer (Answer 300 "B") = FetchText "B" /\
  fst multiple_choices_iteration = Returns tt /\
  reported (snd (snd multiple_choices_iteration)) = [Changed] /\
  reported (snd (snd multiple_choices_iteration)) <> [FetchFailed] /\
  previous_hash (fst (snd multiple_choices_iteration)) = PyStr "sha256(B)" /\
  saved_hash_of
    (files (snd (snd multiple_choices_iteration))
       !! hash_file_of sample_library sample_url) = PyStr "sha256(B)" /\
  files empty_world !! hash_file_of sample_library sample_url = None /\
  changes_detected (monitor_status (snd (snd multiple_choices_iteration))) = 1.
Proof.
  split; [lia|]. vm_compute. repeat split; discriminate.
Qed.

Lemma C10_empty_body_witness :
  env_fetch (env_page "" 1) = FetchText "" /\
  exists w',
    check_for_changes sample_library (env_page "" 1)
      (sample_monitor PyNone (PyStr "sha256(A)"), empty_world) =
      (Returns false, (sample_monitor PyNone (PyStr "sha256(A)"), w')) /\
    reported w' = [FetchFailed].
Proof.
  split; [reflexivity|].
  destruct (C10_empty_body_is_a_failed_fetch sample_library (env_page "" 1)
              (sample_monitor PyNone (PyStr "sha256(A)")) empty_world eq_refl)
    as [(w' & R & G & _) _].
  exists w'. split; assumption.
Defined.

Lemma C2_first_check_witness :
  truthy (previous_hash (sample_monitor PyNone PyNone)) = false /\
  env_fetch (env_page "A" 1) = FetchText "A" /\ "A" <> "" /\
  exists w',
    check_for_changes sample_library (env_page "A" 1)
      (sample_monitor PyNone PyNone, empty_world) =
      (Returns false, (sample_monitor PyNone (PyStr "sha256(A)"), w')) /\
    reported w' = [Indeterminate].
Proof.
  split; [reflexivity|]. split; [reflexivity|]. split; [discriminate|].
  destruct (C2_first_check_seeds_baseline sample_library (env_page "A" 1)
              (sample_monitor PyNone PyNone) empty_world "A" 5
              eq_refl eq_refl ltac:(discriminate))
    as (w' & _ & R & G & _).
  exists w'. split; assumption.
Defined.

(** C2 as stated fails on a successful fetch whose body is empty: with no
    previous hash and no hash file, the check takes the failed-fetch branch,
    writes no file and leaves the previous hash unset. *)
Lemma C2_counterexample_empty_body :
  env_fetch (env_page "" 1) = FetchText "" /\
  previous_hash (sample_monitor PyNone PyNone) = PyNone /\
  files empty_world !! hash_file (sample_monitor PyNone PyNone) = None /\
  fst empty_body_first_check = Returns false /\
  reported (snd (snd empty_body_first_check)) = [FetchFailed] /\
  reported (snd (snd empty_body_first_check)) <> [Indeterminate] /\
  files (snd (snd empty_body_first_check))
    !! hash_file (sample_monitor PyNone PyNone) = None /\
  previous_hash (fst (snd empty_body_first_check)) = PyNone.
Proof.
  vm_compute. repeat split; discriminate.
Qed.

Lemma C3_compare_witness :
  previous_hash (sample_monitor PyNone (PyStr "sha256(A)")) = PyStr "sha256(A)" /\
  "sha256(A)" <> "" /\
  env_fetch (env_page "B" 2) = FetchText "B" /\ "B" <> "" /\
  exists w',
    check_for_changes sample_library (env_page "B" 2)
      (sample_monitor PyNone (PyStr "sha256(A)"), empty_world) =
      (Returns true, (sample_monitor PyNone (PyStr "sha256(B)"), w')) /\
    reported w' = [Changed] /\
    saved_hash_of
      (files w' !! hash_file (sample_monitor PyNone (PyStr "sha256(A)")))
      = PyStr "sha256(B)".
Proof.
  split; [reflexivity|]. split; [discriminate|].
  split; [reflexivity|]. split; [discriminate|].
  destruct (C3_compare_with_previous sample_library (env_page "B" 2)
              (sample_monitor PyNone (PyStr "sha256(A)")) empty_world "B"
              "sha256(A)" eq_refl ltac:(discriminate) eq_refl
              ltac:(discriminate)) as [_ H].
  destruct (H ltac:(discriminate)) as (w' & R & G & _ & S & _).
  exists w'. split; [exact R|]. split; [exact G|]. exact (S eq_refl).
Defined.

(** C3 as stated fails on a successful fetch whose body is empty: nothing is
    hashed, so no digest equals the stored one, and yet the check returns
    [False] without saving anything or replacing the previous hash. *)
Lemma C3_counterexample_empty_body :
  env_fetch (env_page "" 2) = FetchText "" /\
  previous_hash (sample_monitor PyNone (PyStr "sha256(A)")) = PyStr "sha256(A)" /\
  _calculate_hash sample_library (Some "") = None /\
  py_ne (_calculate_hash sample_library (Some "")) (PyStr "sha256(A)") = true /\
  fst empty_body_later_check = Returns false /\
  fst empty_body_later_check <> Returns true /\
  reported (snd (snd empty_body_later_check)) = [FetchFailed] /\
  files (snd (snd empty_body_later_check)) = files empty_world /\
  previous_hash (fst (snd empty_body_later_check)) = PyStr "sha256(A)".
Proof.
  vm_compute. repeat split; discriminate.
Qed.

(** C1 as stated fails: no reading of the returned value tells the four
    outcomes apart.  A failed fetch and an unchanged page both return
    [False]. *)
Lemma C1_counterexample_same_result :
  ~ exists decode : bool -> Outcome,
      forall e m w b s',
        check_for_changes sample_library e (m, w) = (Returns b, s') ->
        reported (snd s') = (reported w ++ [decode b])%list.
Proof.
  intros [decode H].
  pose proof (H (env_down 1) (sample_monitor PyNone (PyStr "sha256(A)"))
                empty_world false _ eq_refl) as H1.
  pose proof (H (env_page "A" 1) (sample_monitor PyNone (PyStr "sha256(A)"))
                empty_world false _ eq_refl) as H2.
  vm_compute in H1, H2. congruence.
Qed.

(** ** Construction and restart *)

Section RestartFacts.

Variable L : library.

(** [__init__] never raises and writes no file; the previous hash it leaves
    in the object is what the hash file of the address holds. *)
Lemma init_run (u : string) (i : Z) (cfg : pyval) (w : world) :
  exists w',
    __init__ L u i cfg w =
      (Returns (mkMonitor u i cfg (md5_hexdigest L u) (hash_file_of L u)
                  (saved_hash_of (files w !! hash_file_of L u))), w') /\
    files w' = files w /\ smtp_trace w' = smtp_trace w /\
    sleeps w' = sleeps w /\ monitor_status w' = monitor_status w /\
    reported w' = reported w.
Proof.
  unfold __init__, _get_saved_hash, bind, this, try_except, lift,
    os_path_exists, open_json_load, bind, get, ret, assign_previous_hash,
    modify, log, dict_get, raise.
  fold (hash_file_of L u). cbn [fst snd hash_file].
  destruct (files w !! hash_file_of L u) as [[v|]|] eqn:Hfile;
    cbn; rewrite ?Hfile; [destruct v| |]; cbn;
    eexists; (split; [reflexivity|]);
    unfold reported; cbn; rewrite ?omap_app; cbn; rewrite ?app_nil_r;
    repeat split.
Qed.

(** C5.  The hash file name is a function of the address alone, so every
    monitor built for an address uses the same file.  After [_save_hash]
    wrote the digest [F] successfully, a monitor built anew for the same
    address has [F] as its previous hash; if the page still has the body
    whose digest is [F], its first check takes the no-change branch: it
    returns [False], reports no first run and writes nothing. *)
Theorem C5_save_then_load (u : string) :
  (forall s, sha256_hexdigest L s <> "") ->
  (forall i cfg w, exists m w',
      __init__ L u i cfg w = (Returns m, w') /\
      url m = u /\ hash_file m = hash_file_of L u) /\
  (forall m w e F i cfg,
      url m = u -> hash_file m = hash_file_of L u -> env_write e = WriteOk ->
      exists w1 m' w2,
        _save_hash L e (Some F) (m, w) = (Returns tt, (m, w1)) /\
        __init__ L u i cfg w1 = (Returns m', w2) /\
        previous_hash m' = PyStr F /\
        files w2 = files w1 /\ reported w2 = reported w /\
        forall e' c,
          env_fetch e' = FetchText c -> c <> "" -> sha256_hexdigest L c = F ->
          exists w3,
            check_for_changes L e' (m', w2) = (Returns false, (m', w3)) /\
            reported w3 = (reported w2 ++ [NoChange])%list /\
            files w3 = files w2).
Proof.
  intros Hsha. split.
  - intros i cfg w. destruct (init_run u i cfg w) as (w' & R & _).
    eexists. exists w'. split; [exact R|]. split; reflexivity.
  - intros m w e F i cfg Hu Hfile Hw.
    destruct (save_hash_effect L e (Some F) m w) as (w1 & R1 & F1 & G1 & _).
    destruct (init_run u i cfg w1) as (w2 & R2 & F2 & _ & _ & _ & G2).
    assert (Hsaved : saved_hash_of (files w1 !! hash_file_of L u) = PyStr F).
    { rewrite F1. unfold files_after_save. rewrite Hw, Hfile.
      rewrite lookup_insert_eq. reflexivity. }
    rewrite Hsaved in R2.
    exists w1. eexists. exists w2. split; [exact R1|]. split; [exact R2|].
    split; [reflexivity|]. split; [exact F2|].
    split.
    { rewrite G2. rewrite (reported_app w w1 _ G1).
      rewrite save_log_lines_report_nothing. now rewrite app_nil_r. }
    intros e' c Hf Hc Heq.
    eexists. split.
    + apply check_no_change with (c := c); auto.
      * cbn [previous_hash]. apply truthy_str. rewrite <- Heq. apply Hsha.
      * cbn [previous_hash]. rewrite Heq. apply py_ne_same.
    + rewrite !reported_add_log. simpl. rewrite app_nil_r. split; reflexivity.
Qed.

End RestartFacts.

Lemma sample_sha256_nonempty (s : string) :
  sha256_hexdigest sample_library s <> "".
Proof. simpl. discriminate. Qed.

Lemma C5_save_then_load_witness :
  (forall s, sha256_hexdigest sample_library s <> "") /\
  url (sample_monitor PyNone PyNone) = sample_url /\
  hash_file (sample_monitor PyNone PyNone)
    = hash_file_of sample_library sample_url /\
  env_write (env_page "A" 1) = WriteOk /\
  exists w1 m' w2 w3,
    _save_hash sample_library (env_page "A" 1) (Some "sha256(A)")
      (sample_monitor PyNone PyNone, empty_world)
      = (Returns tt, (sample_monitor PyNone PyNone, w1)) /\
    __init__ sample_library sample_url 5 PyNone w1 = (Returns m', w2) /\
    previous_hash m' = PyStr "sha256(A)" /\
    check_for_changes sample_library (env_page "A" 2) (m', w2)
      = (Returns false, (m', w3)) /\
    reported w3 = [NoChange].
Proof.
  split; [exact sample_sha256_nonempty|].
  split; [reflexivity|]. split; [reflexivity|]. split; [reflexivity|].
  destruct (C5_save_then_load sample_library sample_url sample_sha256_nonempty)
    as [_ H].
  destruct (H (sample_monitor PyNone PyNone) empty_world (env_page "A" 1)
              "sha256(A)" 5 PyNone eq_refl eq_refl eq_refl)
    as (w1 & m' & w2 & R1 & R2 & P & _ & G & K).
  destruct (K (env_page "A" 2) "A" eq_refl ltac:(discriminate) eq_refl)
    as (w3 & R3 & G3 & _).
  exists w1, m', w2, w3. repeat (split; [assumption|]).
  rewrite G3, G. reflexivity.
Defined.

(** ** Notification *)

Section NotificationClaims.

Variable L : library.



End NotificationClaims.

(** ** The monitoring loop *)

Section LoopClaims.

Variable L : library.

(** Whatever an iteration meets, it never lowers [changes_detected]. *)
Lemma iteration_monotone (ci : Z) (e : env) (m : WebsiteChangeMonitor)
    (w : world) :
  changes_detected (monitor_status w) <=
  changes_detected
    (monitor_status (snd (snd (monitor_website_iteration L ci e (m, w))))).
Proof.
  destruct (check_cases L e m w)
    as [(x & _ & _ & R) | (b & m' & w' & o & R & _ & _ & _ & St)].
  - destruct (is_Exception x) eqn:Hx.
    + rewrite (iteration_after_raise L ci e m m w _ x R Hx). simpl. lia.
    + unfold monitor_website_iteration, try_except, bind at 1.
      rewrite R, Hx. simpl. lia.
  - destruct (iteration_after_return L ci e m m' w w' b R)
      as (w'' & R' & _ & _ & _ & _ & _ & _ & C & _).
    rewrite R'. cbn [snd]. rewrite C, St. destruct b; lia.
Qed.

Lemma loop_monotone (ci : Z) (es : list env) :
  forall (m : WebsiteChangeMonitor) (w : world),
    changes_detected (monitor_status w) <=
    changes_detected
      (monitor_status (snd (snd (monitor_website_loop L ci es (m, w))))).
Proof.
  induction es as [|e es IH]; intros m w; simpl.
  - lia.
  - pose proof (iteration_monotone ci e m w) as H1.
    unfold bind.
    destruct (monitor_website_iteration L ci e (m, w)) as [[[]|x] [m1 w1]];
      simpl in *.
    + specialize (IH m1 w1). lia.
    + exact H1.
Qed.

(** An iteration in which nothing outside [Exception] is raised always
    completes; when the check raised, the iteration logs the error and sleeps
    the 60 second fallback. *)
Lemma iteration_completes (ci : Z) (e : env) (m : WebsiteChangeMonitor)
    (w : world) :
  (forall x, env_fetch e = FetchRaises x -> is_Exception x = true) ->
  exists m' w',
    monitor_website_iteration L ci e (m, w) = (Returns tt, (m', w')) /\
    (forall x, env_fetch e = FetchRaises x -> is_RequestException x = false ->
       m' = m /\
       w' = add_sleep 60
              (add_log (ERROR, ErrorInMonitoringLoop x)
                 (add_log (INFO, Checking (url m)) w))).
Proof.
  intros Hexc.
  destruct (check_cases L e m w)
    as [(x & Hf & Hx & R) | (b & m' & w' & o & R & _)].
  - rewrite (iteration_after_raise L ci e m m w _ x R (Hexc x Hf)).
    eexists. eexists. split; [reflexivity|].
    intros y Hf' _. rewrite Hf in Hf'. injection Hf' as <-. split; reflexivity.
  - destruct (iteration_after_return L ci e m m' w w' b R) as (w'' & R' & _).
    exists m', w''. split; [exact R'|].
    intros y Hf Hy. exfalso.
    rewrite (check_raises L e m w y Hf Hy) in R. discriminate.
Qed.

(** So the loop of [monitor_website] is still looping after any number of
    such iterations. *)
Lemma loop_keeps_looping (ci : Z) (es : list env) :
  Forall (fun e => forall x, env_fetch e = FetchRaises x ->
                             is_Exception x = true) es ->
  forall m w, exists m' w',
    monitor_website_loop L ci es (m, w) = (Returns StillLooping, (m', w')).
Proof.
  induction 1 as [|e es He _ IH]; intros m w; simpl.
  - exists m, w. reflexivity.
  - destruct (iteration_completes ci e m w He) as (m1 & w1 & R & _).
    unfold bind. rewrite R. apply IH.
Qed.

(** [start_monitoring] is different: it logs the exception and raises it
    again, which ends its loop. *)
Lemma start_monitoring_reraises (e : env) (es : list env)
    (m : WebsiteChangeMonitor) (w : world) (x : exn) :
  env_fetch e = FetchRaises x -> is_RequestException x = false ->
  is_Exception x = true ->
  start_monitoring L (e :: es) (m, w) =
    (Raised x,
     (m, add_log (ERROR, UnexpectedError x)
           (add_log (INFO, Checking (url m))
              (add_log (INFO, StartingToMonitor (url m) (check_interval m))
                 w)))).
Proof.
  intros Hf Hx He.
  unfold start_monitoring, bind at 1 2, this at 1, lift at 1. cbn [fst snd].
  cbn [start_monitoring_loop]. unfold bind at 1.
  unfold log at 1, modify at 1. cbn [fst snd].
  rewrite (check_raises L e m _ x Hf Hx).
  assert (Hk : is_KeyboardInterrupt x = false) by (destruct x; auto; discriminate).
  rewrite Hk, He. reflexivity.
Qed.

(** Without a target address [monitor_website] logs the error and returns
    before anything else happens. *)
Lemma monitor_website_without_target (environ : gmap string string)
    (es : list env) (w : world) :
  truthy (environ_get environ "WEBSITE_URL") = false ->
  monitor_website L environ es w =
    (Returns None, add_log (ERROR, WebsiteUrlNotSet) w).
Proof.
  intros H. unfold monitor_website.
  destruct (environ_get environ "WEBSITE_URL"); try reflexivity.
  rewrite H. reflexivity.
Qed.

(** C8, as the code has it.  In an iteration whose check returns (the fetch
    gave a body or failed with a [RequestException]), [last_check_time]
    becomes the current time and [changes_detected] goes up by one exactly
    when the check returned [True], which it does on the changed branch only;
    on the first-run, no-change and failed-fetch branches it stays.  In an
    iteration whose check raises, [monitor_status] is left as it was, so
    [last_check_time] is not brought up to date.  No iteration, and so no run
    of the loop, ever lowers [changes_detected]. *)
Theorem C8_status_invariant (ci : Z) (e : env) (m : WebsiteChangeMonitor)
    (w : world) :
  ((forall x, env_fetch e = FetchRaises x -> is_RequestException x = true) ->
   exists b o m' w' w'',
     check_for_changes L e (m, w) = (Returns b, (m', w')) /\
     reported w' = (reported w ++ [o])%list /\
     (b = true <-> o = Changed) /\
     monitor_website_iteration L ci e (m, w) = (Returns tt, (m', w'')) /\
     last_check_time (monitor_status w'') = Some (env_now e) /\
     changes_detected (monitor_status w'') =
       changes_detected (monitor_status w)
       + (match o with Changed => 1 | _ => 0 end)) /\
  changes_detected (monitor_status w) <=
    changes_detected
      (monitor_status (snd (snd (monitor_website_iteration L ci e (m, w))))) /\
  (forall es,
     changes_detected (monitor_status w) <=
     changes_detected
       (monitor_status (snd (snd (monitor_website_loop L ci es (m, w)))))) /\
  (forall x, env_fetch e = FetchRaises x -> is_RequestException x = false ->
     monitor_status (snd (snd (monitor_website_iteration L ci e (m, w))))
       = monitor_status w).
Proof.
  split; [|split; [|split]].
  - intros Hreq.
    destruct (check_cases L e m w)
      as [(x & Hf & Hx & _) | (b & m' & w' & o & R & G & Hb & _ & St)].
    { rewrite (Hreq x Hf) in Hx. discriminate. }
    destruct (iteration_after_return L ci e m m' w w' b R)
      as (w'' & R' & _ & _ & _ & _ & _ & T & C & _).
    exists b, o, m', w', w''. repeat (split; [assumption|]).
    rewrite C, St. f_equal.
    destruct b, o; try reflexivity;
      try (destruct Hb as [Hb _]; specialize (Hb eq_refl); discriminate);
      destruct Hb as [_ Hb]; specialize (Hb eq_refl); discriminate.
  - apply iteration_monotone.
  - intros es. apply loop_monotone.
  - intros x Hf Hx. pose proof (check_raises L e m w x Hf Hx) as R.
    unfold monitor_website_iteration, try_except, bind at 1. rewrite R.
    destruct (is_Exception x); reflexivity.
Qed.

End LoopClaims.

Lemma C8_status_invariant_witness :
  (forall x, env_fetch (env_down 7) = FetchRaises x ->
             is_RequestException x = true) /\
  exists w'',
    monitor_website_iteration sample_library 5 (env_down 7)
      (sample_monitor PyNone (PyStr "sha256(A)"), empty_world)
      = (Returns tt, (sample_monitor PyNone (PyStr "sha256(A)"), w'')) /\
    last_check_time (monitor_status w'') = Some 7 /\
    changes_detected (monitor_status w'') = 0.
Proof.
  assert (H : forall x, env_fetch (env_down 7) = FetchRaises x ->
                        is_RequestException x = true).
  { intros x [= <-]. reflexivity. }
  split; [exact H|].
  destruct (C8_status_invariant sample_library 5 (env_down 7)
              (sample_monitor PyNone (PyStr "sha256(A)")) empty_world)
    as [K _].
  destruct (K H) as (b & o & m' & w' & w'' & R & G & _ & R' & T & C).
  assert (E : check_for_changes sample_library (env_down 7)
                (sample_monitor PyNone (PyStr "sha256(A)"), empty_world)
              = (Returns false,
                 (sample_monitor PyNone (PyStr "sha256(A)"),
                  add_log (WARNING, FailedToGetContent)
                    (add_log (ERROR, ErrorFetching Timeout)
                       (add_log (INFO, Checking sample_url) empty_world)))))
    by reflexivity.
  rewrite E in R. injection R as <- <- <-.
  injection G as <-.
  exists w''. split; [exact R'|]. split; [exact T|]. exact C.
Defined.

(** C8 as stated fails on an iteration whose check raises: the fetch raises
    a [ValueError], the loop catches it, logs it and sleeps 60 seconds, and
    [last_check_time] is still unset although a check was attempted at
    time 3. *)
Lemma C8_counterexample_check_raises :
  is_RequestException ValueError = false /\
  fst raising_iteration = Returns tt /\
  In (INFO, Checking sample_url) (logs (snd (snd raising_iteration))) /\
  In (ERROR, ErrorInMonitoringLoop ValueError)
     (logs (snd (snd raising_iteration))) /\
  sleeps (snd (snd raising_iteration)) = [60] /\
  last_check_time (monitor_status (snd (snd raising_iteration))) = None /\
  last_check_time (monitor_status (snd (snd raising_iteration))) <> Some 3.
Proof.
  vm_compute. repeat split; try discriminate; auto.
Qed.


(** ** Start-up of [monitor_website] *)

Section StartupFacts.

Variable L : library.

(** A port that [int] rejects ends [monitor_website] with the [ValueError]
    before the monitor is built: no check is made and [is_running] is never
    set. *)
Lemma monitor_website_bad_port (environ : gmap string string) (es : list env)
    (w : world) :
  truthy (environ_get environ "WEBSITE_URL") = true ->
  forallb (fun var => truthy (environ_get environ var))
    ["EMAIL_SENDER"; "EMAIL_RECIPIENT"; "SMTP_SERVER"] = true ->
  py_int (environ_get_default environ "SMTP_PORT" "587") = None ->
  exists w',
    monitor_website L environ es w = (Raised ValueError, w') /\
    monitor_status w' = monitor_status w /\
    reported w' = reported w /\ files w' = files w.
Proof.
  intros Hurl Hall Hport. unfold monitor_website.
  unfold environ_get at 1 in Hurl. unfold environ_get at 1 2.
  destruct (environ !! "WEBSITE_URL") as [u|]; [|discriminate Hurl].
  cbn [of_option] in *. rewrite Hurl. cbn [negb].
  unfold bind at 1. unfold try_except, int.
  destruct (py_int (environ_get_default environ "CHECK_INTERVAL" "3600"));
    cbn; unfold bind at 1; unfold build_email_config; rewrite Hall;
    unfold bind at 1; unfold int; rewrite Hport; cbn;
    eexists; (split; [reflexivity|]); unfold reported; cbn;
    rewrite ?omap_app; cbn; rewrite ?app_nil_r; repeat split.
Qed.

(** The configuration built from the environment always carries the keys
    [username] and [password], so the notifier always calls [login], with
    whatever the environment held for them. *)
Lemma login_is_always_called (environ : gmap string string) (w w' : world)
    (cfg : pyval) (e : env) (m : WebsiteChangeMonitor) (w0 : world) :
  build_email_config environ w = (Returns cfg, w') ->
  truthy cfg = true -> email_config m = cfg ->
  env_smtp_error e <> Some StepConnect ->
  env_smtp_error e <> Some StepStartTLS ->
  In (SMTP_login (environ_get environ "EMAIL_USERNAME")
                 (environ_get environ "EMAIL_PASSWORD"))
     (smtp_trace (snd (snd (_send_email_notification L e (m, w0))))).
Proof.
  intros Hb Ht Hm Hc Hs. unfold build_email_config in Hb.
  destruct (forallb _ _).
  2:{ cbn in Hb. injection Hb as <- _. discriminate Ht. }
  unfold bind at 1, int in Hb.
  destruct (py_int _) as [port|]; [|discriminate Hb].
  cbn in Hb. injection Hb as <- _.
  unfold _send_email_notification, bind at 1, this at 1. cbn [fst snd].
  rewrite Hm. cbn [truthy negb].
  unfold try_except, bind, getitem, dict_get, contains, lift, smtp_call,
    bind, modify, log, modify, ret, raise.
  cbn.
  destruct (env_smtp_error e) as [[]|]; try congruence;
    destruct (String.eqb _ "true"); cbn;
    rewrite ?List.in_app_iff; simpl; tauto.
Qed.

End StartupFacts.

(** C7, where the code departs from it.  With a target address and email
    settings present, a port that is no number makes [monitor_website] end
    with an uncaught [ValueError] at start-up, before any iteration; the
    same slip in the check interval is caught and defaulted to 3600. *)
Theorem C7_bad_port_halts_at_startup :
  truthy (environ_get bad_port_environ "WEBSITE_URL") = true /\
  monitor_website sample_library bad_port_environ (page_changes None)
    empty_world = (Raised ValueError, empty_world) /\
  exists m w,
    monitor_website sample_library bad_interval_environ (page_changes None)
      empty_world = (Returns (Some (m, StillLooping)), w) /\
    check_interval m = 3600 /\
    In (ERROR, InvalidCheckInterval) (logs w).
Proof.
  split; [reflexivity|]. split; [vm_compute; reflexivity|].
  eexists. eexists. split; [vm_compute; reflexivity|].
  split; [reflexivity|]. left. reflexivity.
Qed.

(** C9, where the code departs from it.  With sender, recipient and server
    configured and no credentials in the environment, the notifier still
    calls [login], with [None] for both; if that call raises, the message is
    never sent. *)
Theorem C9_login_without_credentials :
  sample_environ !! "EMAIL_USERNAME" = None /\
  sample_environ !! "EMAIL_PASSWORD" = None /\
  fst (build_email_config sample_environ empty_world)
    = Returns sample_email_config /\
  smtp_trace (snd (monitor_website sample_library sample_environ
                     (page_changes None) empty_world)) =
    [SMTP_connect (PyStr "smtp.example.com") (PyInt 587);
     SMTP_starttls;
     SMTP_login PyNone PyNone;
     SMTP_send_message
       (MIMEText "Change detected on https://example.com at at:2"
                 "Website Change Notification: https://example.com"
                 (PyStr "monitor@example.com") (PyStr "ops@example.com"));
     SMTP_quit] /\
  smtp_trace (snd (monitor_website sample_library sample_environ
                     (page_changes (Some StepLogin)) empty_world)) =
    [SMTP_connect (PyStr "smtp.example.com") (PyInt 587);
     SMTP_starttls;
     SMTP_login PyNone PyNone].
Proof.
  vm_compute. repeat split.
Qed.

(** * Further properties of the code *)

(** ** The hash file *)

Section HashFileFacts.

Variable L : library.

Lemma files_after_save_other (e : env) (m : WebsiteChangeMonitor)
    (h : option string) (fs : gmap string file) (p : string) :
  p <> hash_file m -> files_after_save L e m h fs !! p = fs !! p.
Proof.
  intros Hp. unfold files_after_save.
  destruct (env_write e); rewrite ?lookup_insert_ne; auto.
Qed.

(** [_get_saved_hash] never raises and changes nothing but the log. *)
Lemma get_saved_hash_run (m : WebsiteChangeMonitor) (w : world) :
  exists w',
    _get_saved_hash (m, w) =
      (Returns (saved_hash_of (files w !! hash_file m)), (m, w')) /\
    files w' = files w /\ smtp_trace w' = smtp_trace w /\
    sleeps w' = sleeps w /\ monitor_status w' = monitor_status w.
Proof.
  unfold _get_saved_hash, bind, this, try_except, lift, os_path_exists,
    open_json_load, bind, get, ret, dict_get, raise, log, modify.
  cbn [fst snd].
  destruct (files w !! hash_file m) as [[v|]|] eqn:Hfile;
    cbn; rewrite ?Hfile; [destruct v| |]; cbn;
    eexists; (split; [reflexivity|]); repeat split.
Qed.

(** X1.  [_get_saved_hash] by what the hash file holds: nothing (the file is
    missing) gives [None]; a JSON object gives its ["hash"] entry, or [None]
    when the key is missing; a file that does not parse, or parses to
    anything but an object, gives [None] after one error line.  It never
    raises and leaves the object and the files as they were. *)
Theorem X1_get_saved_hash_tolerates_any_file (m : WebsiteChangeMonitor)
    (w : world) :
  match files w !! hash_file m with
  | None => _get_saved_hash (m, w) = (Returns PyNone, (m, w))
  | Some FileCorrupt =>
      _get_saved_hash (m, w) =
        (Returns PyNone,
         (m, add_log (ERROR, ErrorReadingHashFile JSONDecodeError) w))
  | Some (FileJson (PyDict items)) =>
      _get_saved_hash (m, w) =
        (Returns (match assoc "hash" items with
                  | Some v => v
                  | None => PyNone
                  end), (m, w))
  | Some (FileJson _) =>
      _get_saved_hash (m, w) =
        (Returns PyNone,
         (m, add_log (ERROR, ErrorReadingHashFile AttributeError) w))
  end.
Proof.
  unfold _get_saved_hash, bind, this, try_except, lift, os_path_exists,
    open_json_load, bind, get, ret, dict_get, raise, log, modify.
  cbn [fst snd].
  destruct (files w !! hash_file m) as [[v|]|] eqn:Hfile;
    cbn; rewrite ?Hfile; [destruct v| |]; cbn; try reflexivity.
  all: destruct w; reflexivity.
Qed.

(** X2.  [_save_hash] never raises and touches no file but the monitor's own
    hash file.  When the write succeeds the file holds the record with the
    given hash, the monitor's address and the time stamp, and nothing is
    logged; when [open] fails the files are exactly as before; when the write
    fails either way one error line is logged. *)
Theorem X2_save_hash_is_contained (e : env) (h : option string)
    (m : WebsiteChangeMonitor) (w : world) :
  fst (_save_hash L e h (m, w)) = Returns tt /\
  fst (snd (_save_hash L e h (m, w))) = m /\
  (forall p, p <> hash_file m ->
     files (snd (snd (_save_hash L e h (m, w)))) !! p = files w !! p) /\
  match env_write e with
  | WriteOk =>
      files (snd (snd (_save_hash L e h (m, w)))) !! hash_file m =
        Some (FileJson (PyDict [("hash", of_option h);
                                ("url", PyStr (url m));
                                ("timestamp", PyStr (isoformat L (env_now e)))]))
      /\ logs (snd (snd (_save_hash L e h (m, w)))) = logs w
  | WriteOpenFails =>
      files (snd (snd (_save_hash L e h (m, w)))) = files w /\
      logs (snd (snd (_save_hash L e h (m, w)))) =
        (logs w ++ [(ERROR, ErrorSavingHashFile OSError)])%list
  | WriteDumpFails =>
      logs (snd (snd (_save_hash L e h (m, w)))) =
        (logs w ++ [(ERROR, ErrorSavingHashFile OSError)])%list
  end.
Proof.
  destruct (save_hash_run L e h m w) as (w' & R & _ & _ & _ & H).
  rewrite R. cbn [fst snd].
  split; [reflexivity|]. split; [reflexivity|]. split.
  - intros p Hp. destruct (env_write e); destruct H as [F _]; rewrite F;
      rewrite ?lookup_insert_ne; auto.
  - destruct (env_write e); destruct H as [F G].
    + split; [|exact G]. rewrite F, lookup_insert_eq. reflexivity.
    + split; assumption.
    + exact G.
Qed.

(** X3.  Saving and then reading back.  After a successful write
    [_get_saved_hash] returns the hash just saved; after a failed [open] it
    returns what it would have returned before the save (the old record
    survives); after a write that failed once the file was opened it returns
    [None] (the old record is lost). *)
Theorem X3_save_then_get_saved_hash (e : env) (h : option string)
    (m : WebsiteChangeMonitor) (w : world) :
  match env_write e with
  | WriteOk =>
      fst (_get_saved_hash (snd (_save_hash L e h (m, w))))
        = Returns (of_option h)
  | WriteOpenFails =>
      fst (_get_saved_hash (snd (_save_hash L e h (m, w))))
        = fst (_get_saved_hash (m, w))
  | WriteDumpFails =>
      fst (_get_saved_hash (snd (_save_hash L e h (m, w))))
        = Returns PyNone
  end.
Proof.
  destruct (save_hash_run L e h m w) as (w' & R & _ & _ & _ & H).
  rewrite R. cbn [snd].
  destruct (get_saved_hash_run m w') as (w2 & R2 & _).
  destruct (get_saved_hash_run m w) as (w3 & R3 & _).
  rewrite R2, R3. cbn [fst].
  destruct (env_write e); destruct H as [F _]; rewrite F.
  - rewrite lookup_insert_eq. cbn. now destruct h.
  - reflexivity.
  - rewrite lookup_insert_eq. reflexivity.
Qed.

End HashFileFacts.

(** ** What a check leaves alone *)

Section CheckFrame.

Variable L : library.

Lemma py_ne_false (h : string) (v : pyval) :
  py_ne (Some h) v = false -> v = PyStr h.
Proof.
  destruct v; simpl; try discriminate.
  destruct (String.eqb_spec h s); [intros _; now subst | discriminate].
Qed.

Lemma set_previous_hash_same (m : WebsiteChangeMonitor) (v : pyval) :
  previous_hash m = v -> set_previous_hash v m = m.
Proof. intros <-. now destruct m. Qed.

(** After a check that fetched a non-empty body, the digest of that body is
    the previous hash, whichever branch ran and however the write went. *)
Lemma check_after_body (e : env) (m : WebsiteChangeMonitor) (w : world)
    (c : string) :
  env_fetch e = FetchText c -> c <> "" ->
  exists b w',
    check_for_changes L e (m, w) =
      (Returns b, (set_previous_hash (PyStr (sha256_hexdigest L c)) m, w')).
Proof.
  intros Hf Hc.
  destruct (truthy (previous_hash m)) eqn:Hp.
  - destruct (py_ne (Some (sha256_hexdigest L c)) (previous_hash m)) eqn:Hne.
    + destruct (check_changed L e m w c Hf Hc Hp Hne) as (w' & _ & _ & R & _).
      eauto.
    + rewrite (check_no_change L e m w c Hf Hc Hp Hne).
      rewrite (set_previous_hash_same m _ (py_ne_false _ _ Hne)). eauto.
  - destruct (check_first_run L e m w c Hf Hc Hp) as (w' & R & _). eauto.
Qed.

(** Everything a check cannot change. *)
Lemma check_frame (e : env) (m : WebsiteChangeMonitor) (w : world) :
  url (fst (snd (check_for_changes L e (m, w)))) = url m /\
  check_interval (fst (snd (check_for_changes L e (m, w)))) = check_interval m /\
  email_config (fst (snd (check_for_changes L e (m, w)))) = email_config m /\
  url_hash (fst (snd (check_for_changes L e (m, w)))) = url_hash m /\
  hash_file (fst (snd (check_for_changes L e (m, w)))) = hash_file m /\
  (forall p, p <> hash_file m ->
     files (snd (snd (check_for_changes L e (m, w)))) !! p = files w !! p) /\
  sleeps (snd (snd (check_for_changes L e (m, w)))) = sleeps w /\
  monitor_status (snd (snd (check_for_changes L e (m, w)))) = monitor_status w /\
  (exists t, smtp_trace (snd (snd (check_for_changes L e (m, w))))
             = (smtp_trace w ++ t)%list /\
             (truthy (email_config m) = false -> t = [])).
Proof.
  assert (Hnil : exists t : list smtp_action,
            smtp_trace w = (smtp_trace w ++ t)%list /\
            (truthy (email_config m) = false -> t = [])).
  { exists []. split; [now rewrite app_nil_r | reflexivity]. }
  destruct (env_fetch e) as [c|x] eqn:Hf.
  - destruct (String.eqb_spec c "") as [->|Hc].
    + rewrite (check_empty L e m w Hf). cbn. repeat split; auto.
    + destruct (truthy (previous_hash m)) eqn:Hp.
      * destruct (py_ne (Some (sha256_hexdigest L c)) (previous_hash m)) eqn:Hne.
        -- destruct (check_changed L e m w c Hf Hc Hp Hne)
             as (w' & t & sent & R & F & _ & Hs & T & S & St).
           rewrite R. cbn [fst snd]. repeat split; auto.
           ++ intros p Hp'. rewrite F. now apply files_after_save_other.
           ++ exists t. split; [exact T|]. intros Hcfg. rewrite Hcfg in Hs.
              tauto.
        -- rewrite (check_no_change L e m w c Hf Hc Hp Hne). cbn.
           repeat split; auto.
      * destruct (check_first_run L e m w c Hf Hc Hp)
          as (w' & R & F & _ & T & S & St).
        rewrite R. cbn [fst snd]. repeat split; auto.
        -- intros p Hp'. rewrite F. now apply files_after_save_other.
        -- exists []. split; [now rewrite app_nil_r | reflexivity].
  - destruct (is_RequestException x) eqn:Hx.
    + rewrite (check_fetch_failed L e m w x Hf Hx). cbn. repeat split; auto.
    + rewrite (check_raises L e m w x Hf Hx). cbn. repeat split; auto.
Qed.

(** X4.  A check changes nothing of the monitor object (address, interval,
    configuration, address digest, hash file) but its previous hash, and that only to the digest of a non-empty body just fetched; it
    touches no file but the monitor's own hash file, never sleeps, never
    touches [monitor_status], and without an email configuration makes no
    SMTP call. *)
Theorem X4_check_changes_only_the_previous_hash (e : env)
    (m : WebsiteChangeMonitor) (w : world) :
  url (fst (snd (check_for_changes L e (m, w)))) = url m /\
  check_interval (fst (snd (check_for_changes L e (m, w)))) = check_interval m /\
  email_config (fst (snd (check_for_changes L e (m, w)))) = email_config m /\
  url_hash (fst (snd (check_for_changes L e (m, w)))) = url_hash m /\
  hash_file (fst (snd (check_for_changes L e (m, w)))) = hash_file m /\
  (previous_hash (fst (snd (check_for_changes L e (m, w)))) = previous_hash m \/
   exists c, env_fetch e = FetchText c /\ c <> "" /\
     previous_hash (fst (snd (check_for_changes L e (m, w))))
       = PyStr (sha256_hexdigest L c)) /\
  (forall p, p <> hash_file m ->
     files (snd (snd (check_for_changes L e (m, w)))) !! p = files w !! p) /\
  sleeps (snd (snd (check_for_changes L e (m, w)))) = sleeps w /\
  monitor_status (snd (snd (check_for_changes L e (m, w)))) = monitor_status w /\
  (truthy (email_config m) = false ->
   smtp_trace (snd (snd (check_for_changes L e (m, w)))) = smtp_trace w).
Proof.
  destruct (check_frame e m w)
    as (U & I & C & Uh & H & F & S & St & t & T & Ht).
  repeat (split; [assumption|]).
  split.
  - destruct (env_fetch e) as [c|x] eqn:Hf.
    + destruct (String.eqb_spec c "") as [->|Hc].
      * left. now rewrite (check_empty L e m w Hf).
      * right. exists c. destruct (check_after_body e m w c Hf Hc) as (b & w' & R).
        rewrite R. repeat split; auto.
    + left. destruct (is_RequestException x) eqn:Hx.
      * now rewrite (check_fetch_failed L e m w x Hf Hx).
      * now rewrite (check_raises L e m w x Hf Hx).
  - repeat (split; [assumption|]).
    intros Hcfg. rewrite T, (Ht Hcfg). now rewrite app_nil_r.
Qed.

(** X5.  The same body twice.  Whatever the monitor knew before and however
    the write went, after a check that fetched a non-empty body a second
    check that fetches the same body takes the no-change branch: it returns
    [False], writes nothing, sends nothing and leaves the object alone. *)
Theorem X5_same_body_twice (e1 e2 : env) (m : WebsiteChangeMonitor)
    (w : world) (c : string) :
  (forall s, sha256_hexdigest L s <> "") ->
  env_fetch e1 = FetchText c -> env_fetch e2 = FetchText c -> c <> "" ->
  exists b m1 w1,
    check_for_changes L e1 (m, w) = (Returns b, (m1, w1)) /\
    check_for_changes L e2 (m1, w1) =
      (Returns false,
       (m1, add_log (INFO, NoChanges (url m))
              (add_log (INFO, Checking (url m)) w1))).
Proof.
  intros Hsha Hf1 Hf2 Hc.
  destruct (check_after_body e1 m w c Hf1 Hc) as (b & w1 & R1).
  exists b. eexists. exists w1. split; [exact R1|].
  rewrite check_no_change with (c := c); auto.
  - cbn [previous_hash set_previous_hash]. apply truthy_str. apply Hsha.
  - cbn [previous_hash set_previous_hash]. apply py_ne_same.
Qed.

End CheckFrame.

Lemma X5_same_body_twice_witness :
  (forall s, sha256_hexdigest sample_library s <> "") /\
  env_fetch (env_page "A" 1) = FetchText "A" /\
  env_fetch (env_page "A" 2) = FetchText "A" /\ "A" <> "" /\
  exists b m1 w1,
    check_for_changes sample_library (env_page "A" 1)
      (sample_monitor sample_email_config (PyStr "sha256(Z)"), empty_world)
      = (Returns b, (m1, w1)) /\
    fst (check_for_changes sample_library (env_page "A" 2) (m1, w1))
      = Returns false.
Proof.
  split; [exact sample_sha256_nonempty|].
  split; [reflexivity|]. split; [reflexivity|]. split; [discriminate|].
  destruct (X5_same_body_twice sample_library (env_page "A" 1) (env_page "A" 2)
              (sample_monitor sample_email_config (PyStr "sha256(Z)"))
              empty_world "A" sample_sha256_nonempty eq_refl eq_refl
              ltac:(discriminate)) as (b & m1 & w1 & R1 & R2).
  exists b, m1, w1. split; [exact R1|]. now rewrite R2.
Defined.

(** ** Restart *)

Section RestartCases.

Variable L : library.

Lemma list_ascii_of_append (a b : string) :
  list_ascii_of_string (a ++ b) =
    (list_ascii_of_string a ++ list_ascii_of_string b)%list.
Proof. induction a as [|x a IH]; simpl; [reflexivity | now rewrite IH]. Qed.

Lemma append_inv_tail (a b s : string) : a ++ s = b ++ s -> a = b.
Proof.
  intros H. apply (f_equal list_ascii_of_string) in H.
  rewrite !list_ascii_of_append in H. apply app_inv_tail in H.
  apply (f_equal string_of_list_ascii) in H.
  now rewrite !string_of_list_ascii_of_string in H.
Qed.

Lemma hash_file_of_inj (u1 u2 : string) :
  hash_file_of L u1 = hash_file_of L u2 ->
  md5_hexdigest L u1 = md5_hexdigest L u2.
Proof.
  unfold hash_file_of. intros H.
  apply String.app_inj in H. now apply append_inv_tail in H.
Qed.

(** [__init__] on a hash file that does not parse. *)
Lemma init_corrupt (u : string) (i : Z) (cfg : pyval) (w : world) :
  files w !! hash_file_of L u = Some FileCorrupt ->
  __init__ L u i cfg w =
    (Returns (mkMonitor u i cfg (md5_hexdigest L u) (hash_file_of L u) PyNone),
     add_log (INFO, PreviousHash PyNone)
       (add_log (INFO, MonitoringInitialized u)
          (add_log (ERROR, ErrorReadingHashFile JSONDecodeError) w))).
Proof.
  intros Hfile.
  unfold __init__, _get_saved_hash, bind, this, try_except, lift,
    os_path_exists, open_json_load, bind, get, ret, assign_previous_hash,
    modify, log, dict_get, raise.
  fold (hash_file_of L u). cbn [fst snd hash_file].
  rewrite Hfile. cbn. rewrite Hfile. reflexivity.
Qed.

(** X6.  A hash file that does not parse is treated as no previous hash.
    [__init__] logs the read error and still builds the monitor; its first
    check that fetches a non-empty body then takes the first-run branch,
    whatever the page held before: it returns [False], makes no SMTP call,
    and (when the write succeeds) replaces the unreadable file by a valid
    record of the current digest. *)
Theorem X6_corrupt_record_is_reseeded (u : string) (i : Z) (cfg : pyval)
    (w : world) (e : env) (c : string) :
  files w !! hash_file_of L u = Some FileCorrupt ->
  env_fetch e = FetchText c -> c <> "" -> env_write e = WriteOk ->
  exists m w1 w2,
    __init__ L u i cfg w = (Returns m, w1) /\
    previous_hash m = PyNone /\
    In (ERROR, ErrorReadingHashFile JSONDecodeError) (logs w1) /\
    check_for_changes L e (m, w1) =
      (Returns false,
       (set_previous_hash (PyStr (sha256_hexdigest L c)) m, w2)) /\
    reported w2 = (reported w ++ [Indeterminate])%list /\
    smtp_trace w2 = smtp_trace w /\
    files w2 !! hash_file_of L u =
      Some (FileJson (PyDict [("hash", PyStr (sha256_hexdigest L c));
                              ("url", PyStr u);
                              ("timestamp", PyStr (isoformat L (env_now e)))])).
Proof.
  intros Hfile Hf Hc Hw.
  rewrite (init_corrupt u i cfg w Hfile).
  eexists. eexists.
  match goal with
  | |- exists w2, (_, ?w1) = _ /\ _ =>
      destruct (check_first_run L e
                  (mkMonitor u i cfg (md5_hexdigest L u) (hash_file_of L u) PyNone)
                  w1 c Hf Hc eq_refl) as (w2 & R & F & G & T & _)
  end.
  exists w2. split; [reflexivity|]. split; [reflexivity|].
  split; [cbn; rewrite !List.in_app_iff; cbn; tauto|].
  split; [exact R|]. split.
  { rewrite (reported_app _ w2 _ G), omap_app, save_log_lines_report_nothing.
    rewrite !reported_add_log. cbn. now rewrite !app_nil_r. }
  split; [exact T|].
  rewrite F. unfold files_after_save. rewrite Hw. cbn [hash_file].
  rewrite lookup_insert_eq. reflexivity.
Qed.

(** X7.  Monitors of two addresses whose md5 digests differ use different
    hash files: a save made by the monitor of one address does not change
    what [__init__] builds for the other. *)
Theorem X7_addresses_do_not_interfere (u1 u2 : string) (e : env)
    (h : option string) (m1 : WebsiteChangeMonitor) (w : world) (i : Z)
    (cfg : pyval) :
  md5_hexdigest L u1 <> md5_hexdigest L u2 ->
  hash_file m1 = hash_file_of L u1 ->
  hash_file_of L u1 <> hash_file_of L u2 /\
  fst (__init__ L u2 i cfg (snd (snd (_save_hash L e h (m1, w)))))
    = fst (__init__ L u2 i cfg w).
Proof.
  intros Hmd5 Hfile.
  assert (Hne : hash_file_of L u1 <> hash_file_of L u2).
  { intros H. apply Hmd5. now apply hash_file_of_inj. }
  split; [exact Hne|].
  destruct (save_hash_effect L e h m1 w) as (w1 & R & F & _).
  rewrite R. cbn [snd].
  destruct (init_run L u2 i cfg w1) as (w2 & R2 & _).
  destruct (init_run L u2 i cfg w) as (w3 & R3 & _).
  rewrite R2, R3. cbn [fst]. rewrite F.
  rewrite files_after_save_other; [reflexivity|].
  rewrite Hfile. auto.
Qed.

End RestartCases.

Lemma X6_corrupt_record_witness :
  files corrupt_world !! hash_file_of sample_library sample_url
    = Some FileCorrupt /\
  env_fetch (env_page "A" 1) = FetchText "A" /\ "A" <> "" /\
  env_write (env_page "A" 1) = WriteOk /\
  exists m w1 w2,
    __init__ sample_library sample_url 5 PyNone corrupt_world
      = (Returns m, w1) /\
    check_for_changes sample_library (env_page "A" 1) (m, w1)
      = (Returns false, (set_previous_hash (PyStr "sha256(A)") m, w2)) /\
    reported w2 = [Indeterminate].
Proof.
  split; [reflexivity|]. split; [reflexivity|]. split; [discriminate|].
  split; [reflexivity|].
  destruct (X6_corrupt_record_is_reseeded sample_library sample_url 5 PyNone
              corrupt_world (env_page "A" 1) "A" eq_refl eq_refl
              ltac:(discriminate) eq_refl)
    as (m & w1 & w2 & R1 & _ & _ & R2 & G & _).
  exists m, w1, w2. split; [exact R1|]. split; [exact R2|exact G].
Defined.

Lemma X7_addresses_witness :
  md5_hexdigest sample_library sample_url
    <> md5_hexdigest sample_library other_url /\
  hash_file (sample_monitor PyNone PyNone)
    = hash_file_of sample_library sample_url /\
  fst (__init__ sample_library other_url 5 PyNone
         (snd (snd (_save_hash sample_library (env_page "A" 1) (Some "sha256(A)")
                      (sample_monitor PyNone PyNone, empty_world)))))
    = fst (__init__ sample_library other_url 5 PyNone empty_world).
Proof.
  assert (H : md5_hexdigest sample_library sample_url
                <> md5_hexdigest sample_library other_url) by discriminate.
  split; [exact H|]. split; [reflexivity|].
  exact (proj2 (X7_addresses_do_not_interfere sample_library sample_url
                  other_url (env_page "A" 1) (Some "sha256(A)")
                  (sample_monitor PyNone PyNone) empty_world 5 PyNone
                  H eq_refl)).
Defined.

(** ** The notifier *)

Section NotifierCases.

Variable L : library.

(** What [build_email_config] returns when the three required settings are
    present and the port is a number. *)
Lemma build_email_config_present (environ : gmap string string) (w : world)
    (port : Z) :
  forallb (fun var => truthy (environ_get environ var))
    ["EMAIL_SENDER"; "EMAIL_RECIPIENT"; "SMTP_SERVER"] = true ->
  py_int (environ_get_default environ "SMTP_PORT" "587") = Some port ->
  build_email_config environ w =
    (Returns
       (PyDict [("sender", environ_get environ "EMAIL_SENDER");
                ("recipient", environ_get environ "EMAIL_RECIPIENT");
                ("smtp_server", environ_get environ "SMTP_SERVER");
                ("smtp_port", PyInt port);
                ("use_tls",
                 PyBool (String.eqb
                           (lower (environ_get_default environ "USE_TLS" "True"))
                           "true"));
                ("username", environ_get environ "EMAIL_USERNAME");
                ("password", environ_get environ "EMAIL_PASSWORD")]),
     add_log (INFO, EmailConfigured) w).
Proof.
  intros Hall Hport. unfold build_email_config. rewrite Hall.
  unfold bind at 1, int. rewrite Hport. reflexivity.
Qed.

(** X8.  The SMTP session of a configuration built from the environment,
    when no call fails: connect to the configured server and port, then
    [starttls] exactly when [USE_TLS] (default ["True"]) spells "true" in any
    letter case, then [login] with whatever the environment held as
    credentials, then the message from sender to recipient, then [quit];
    one line [EmailSent] is logged and no file is touched. *)
Theorem X8_smtp_session_from_environment (environ : gmap string string)
    (w w1 : world) (port : Z) (e : env) (m : WebsiteChangeMonitor)
    (w0 : world) :
  forallb (fun var => truthy (environ_get environ var))
    ["EMAIL_SENDER"; "EMAIL_RECIPIENT"; "SMTP_SERVER"] = true ->
  py_int (environ_get_default environ "SMTP_PORT" "587") = Some port ->
  build_email_config environ w = (Returns (email_config m), w1) ->
  env_smtp_error e = None ->
  exists w',
    _send_email_notification L e (m, w0) = (Returns tt, (m, w')) /\
    smtp_trace w' =
      (smtp_trace w0
       ++ [SMTP_connect (environ_get environ "SMTP_SERVER") (PyInt port)]
       ++ (if String.eqb (lower (environ_get_default environ "USE_TLS" "True"))
                         "true"
           then [SMTP_starttls] else [])
       ++ [SMTP_login (environ_get environ "EMAIL_USERNAME")
                      (environ_get environ "EMAIL_PASSWORD");
           SMTP_send_message
             (MIMEText ("Change detected on " ++ url m ++ " at "
                        ++ strftime L (env_now e))
                       ("Website Change Notification: " ++ url m)
                       (environ_get environ "EMAIL_SENDER")
                       (environ_get environ "EMAIL_RECIPIENT"));
           SMTP_quit])%list /\
    logs w' = (logs w0 ++ [(INFO, EmailSent)])%list /\
    files w' = files w0.
Proof.
  intros Hall Hport Hb He.
  rewrite (build_email_config_present environ w port Hall Hport) in Hb.
  injection Hb as Hcfg _.
  unfold _send_email_notification, bind at 1, this at 1. cbn [fst snd].
  rewrite <- Hcfg. cbn [truthy negb].
  unfold try_except, bind, getitem, dict_get, contains, lift, smtp_call,
    bind, modify, log, modify, ret, raise.
  cbn. rewrite He.
  destruct (String.eqb _ "true"); cbn;
    eexists; (split; [reflexivity|]); cbn;
    rewrite <- ?app_assoc; repeat split.
Qed.

(** The calls appended to a trace, read off the term. *)
Ltac new_calls t :=
  lazymatch t with
  | (?x ++ [?a])%list => let r := new_calls x in constr:((r ++ [a])%list)
  | _ => constr:(@nil smtp_action)
  end.

(** X9.  A failing SMTP call ends the session.  With the four settings the
    message needs present, when connecting, sending or quitting raises, the
    failing call is the last SMTP call made (so after a failed send [quit] is
    never called), the failure is logged and nothing is raised. *)
Theorem X9_failing_call_is_the_last (e : env) (m : WebsiteChangeMonitor)
    (w : world) (items : list (string * pyval)) (a b h p : pyval)
    (s : smtp_step) :
  email_config m = PyDict items ->
  assoc "sender" items = Some a -> assoc "recipient" items = Some b ->
  assoc "smtp_server" items = Some h -> assoc "smtp_port" items = Some p ->
  env_smtp_error e = Some s ->
  s = StepConnect \/ s = StepSend \/ s = StepQuit ->
  exists w' before last_call,
    _send_email_notification L e (m, w) = (Returns tt, (m, w')) /\
    smtp_trace w' = (smtp_trace w ++ before ++ [last_call])%list /\
    step_of_action last_call = s /\
    logs w' = (logs w ++ [(ERROR, EmailFailed SMTPException)])%list.
Proof.
  intros Hcfg Ha Hb Hh Hp He Hs.
  assert (Ht : truthy (PyDict items) = true).
  { destruct items; [discriminate Ha | reflexivity]. }
  unfold _send_email_notification, bind, this, try_except, lift, getitem,
    dict_get, contains, smtp_call, bind, modify, log, modify, ret, raise.
  cbn [fst snd]. rewrite Hcfg, Ht. cbn [negb].
  rewrite Ha, Hb, Hh, Hp, He.
  destruct (assoc "use_tls" items) as [tls|]; [destruct (truthy tls)|];
    destruct (assoc "username" items) as [u|];
    destruct (assoc "password" items) as [pw|];
    destruct Hs as [-> | [-> | ->]]; cbn;
    match goal with
    | |- context [(Returns tt, (m, ?W))] =>
        exists W;
        let tr := eval cbn in (smtp_trace W) in
        let l := new_calls tr in
        let l' := eval cbn in l in
        exists (removelast l'), (List.last l' SMTP_quit)
    end; cbn; rewrite <- ?app_assoc; repeat split.
Qed.

(** X10.  A configuration that lacks one of the settings the message needs.
    The lookup raises [KeyError] inside the notifier's [try]: no SMTP call is
    made, the failure is logged and nothing is raised. *)
Theorem X10_missing_setting_is_absorbed (e : env) (m : WebsiteChangeMonitor)
    (w : world) (items : list (string * pyval)) :
  email_config m = PyDict items -> items <> [] ->
  assoc "sender" items = None \/ assoc "recipient" items = None \/
  assoc "smtp_server" items = None \/ assoc "smtp_port" items = None ->
  _send_email_notification L e (m, w) =
    (Returns tt, (m, add_log (ERROR, EmailFailed KeyError) w)).
Proof.
  intros Hcfg Hne Hmiss.
  assert (Ht : truthy (PyDict items) = true) by (destruct items; auto).
  unfold _send_email_notification, bind, this, try_except, lift, getitem,
    bind, log, modify, ret, raise.
  cbn [fst snd]. rewrite Hcfg, Ht. cbn [negb].
  destruct (assoc "sender" items); cbn; [|reflexivity].
  destruct (assoc "recipient" items); cbn; [|reflexivity].
  destruct (assoc "smtp_server" items); cbn; [|reflexivity].
  destruct (assoc "smtp_port" items); cbn; [|reflexivity].
  destruct Hmiss as [H|[H|[H|H]]]; discriminate H.
Qed.

End NotifierCases.

(** ** Iterations of the loop in [monitor_website] *)

Section LoopCases.

Variable L : library.

(** The three ways an iteration can go, by how its check ended. *)
Lemma iteration_cases (ci : Z) (e : env) (m : WebsiteChangeMonitor)
    (w : world) :
  (exists x,
     check_for_changes L e (m, w)
       = (Raised x, (m, add_log (INFO, Checking (url m)) w)) /\
     is_Exception x = false /\
     monitor_website_iteration L ci e (m, w)
       = (Raised x, (m, add_log (INFO, Checking (url m)) w))) \/
  (exists x,
     check_for_changes L e (m, w)
       = (Raised x, (m, add_log (INFO, Checking (url m)) w)) /\
     is_Exception x = true /\
     monitor_website_iteration L ci e (m, w)
       = (Returns tt,
          (m, add_sleep 60
                (add_log (ERROR, ErrorInMonitoringLoop x)
                   (add_log (INFO, Checking (url m)) w))))) \/
  (exists b m' w' w'',
     check_for_changes L e (m, w) = (Returns b, (m', w')) /\
     monitor_website_iteration L ci e (m, w) = (Returns tt, (m', w'')) /\
     files w'' = files w' /\ smtp_trace w'' = smtp_trace w' /\
     sleeps w'' = (sleeps w ++ [if (ci <? 0) || (9223372036 <? ci)
                                then 60 else ci])%list /\
     is_running (monitor_status w'') = is_running (monitor_status w) /\
     target_url (monitor_status w'') = target_url (monitor_status w) /\
     status_check_interval (monitor_status w'')
       = status_check_interval (monitor_status w)).
Proof.
  destruct (check_cases L e m w)
    as [(x & _ & _ & R) | (b & m' & w' & o & R & _ & _ & S & St)].
  - destruct (is_Exception x) eqn:Hx.
    + right. left. exists x. split; [exact R|]. split; [exact Hx|].
      apply (iteration_after_raise L ci e m m w _ x R Hx).
    + left. exists x. split; [exact R|]. split; [exact Hx|].
      unfold monitor_website_iteration, try_except, bind at 1.
      rewrite R, Hx. reflexivity.
  - right. right.
    destruct (iteration_after_return L ci e m m' w w' b R)
      as (w'' & R' & F & T & _ & _ & Sl & _ & _ & Ir & Tu & Si).
    exists b, m', w', w''. rewrite St in Ir, Tu, Si. rewrite S in Sl.
    repeat split; assumption.
Qed.

(** X11.  An iteration whose check raises.  An exception that is no
    [RequestException] leaves the check before anything is saved or
    assigned.  If it is an [Exception] the iteration logs it and sleeps the
    60 second fallback, leaving the object, the files and [monitor_status]
    (so also [last_check_time]) as they were; if it is not (a
    [KeyboardInterrupt]) it leaves the iteration too. *)
Theorem X11_iteration_whose_check_raises (ci : Z) (e : env)
    (m : WebsiteChangeMonitor) (w : world) (x : exn) :
  env_fetch e = FetchRaises x -> is_RequestException x = false ->
  monitor_website_iteration L ci e (m, w) =
    if is_Exception x
    then (Returns tt,
          (m, add_sleep 60
                (add_log (ERROR, ErrorInMonitoringLoop x)
                   (add_log (INFO, Checking (url m)) w))))
    else (Raised x, (m, add_log (INFO, Checking (url m)) w)).
Proof.
  intros Hf Hx. pose proof (check_raises L e m w x Hf Hx) as R.
  unfold monitor_website_iteration, try_except, bind at 1. rewrite R.
  destruct (is_Exception x); reflexivity.
Qed.

(** X12.  The loop sleeps once per iteration.  When nothing outside
    [Exception] is raised the loop is still looping after any number of
    iterations, and each iteration has slept exactly once: the configured
    interval or the 60 second fallback. *)
Theorem X12_one_sleep_per_iteration (ci : Z) (es : list env) :
  Forall (fun e => forall x, env_fetch e = FetchRaises x ->
                             is_Exception x = true) es ->
  forall m w, exists m' w' naps,
    monitor_website_loop L ci es (m, w) = (Returns StillLooping, (m', w')) /\
    sleeps w' = (sleeps w ++ naps)%list /\
    length naps = length es /\
    Forall (fun n => n = ci \/ n = 60) naps.
Proof.
  induction 1 as [|e es He _ IH]; intros m w; simpl.
  - exists m, w, []. rewrite app_nil_r. repeat split. constructor.
  - unfold bind.
    destruct (iteration_cases ci e m w)
      as [(x & R & Hx & _) | [(x & _ & _ & R') | (b & m1 & w1 & w2 & _ & R' & _ & _ & S & _)]].
    + exfalso. destruct (check_cases L e m w)
        as [(y & Hf & _ & Ry) | (b & m' & w' & o & Ry & _)];
        rewrite Ry in R; [|discriminate].
      injection R as <-. rewrite (He y Hf) in Hx. discriminate.
    + rewrite R'.
      destruct (IH m (add_sleep 60
                        (add_log (ERROR, ErrorInMonitoringLoop x)
                           (add_log (INFO, Checking (url m)) w))))
        as (m' & w' & naps & R & S & Hl & Hn).
      exists m', w', (60 :: naps). split; [exact R|].
      split; [rewrite S; cbn; now rewrite <- app_assoc|].
      split; [cbn; now rewrite Hl|]. constructor; auto.
    + rewrite R'. destruct (IH m1 w2) as (m' & w' & naps & R & S2 & Hl & Hn).
      exists m', w'. eexists (_ :: naps). split; [exact R|].
      split; [rewrite S2, S; now rewrite <- app_assoc|].
      split; [cbn; now rewrite Hl|].
      constructor; [|exact Hn].
      destruct ((ci <? 0) || (9223372036 <? ci)); auto.
Qed.

(** What no iteration changes. *)
Lemma iteration_keeps (ci : Z) (e : env) (m : WebsiteChangeMonitor)
    (w : world) :
  is_running (monitor_status (snd (snd (monitor_website_iteration L ci e (m, w)))))
    = is_running (monitor_status w) /\
  target_url (monitor_status (snd (snd (monitor_website_iteration L ci e (m, w)))))
    = target_url (monitor_status w) /\
  status_check_interval
    (monitor_status (snd (snd (monitor_website_iteration L ci e (m, w)))))
    = status_check_interval (monitor_status w) /\
  url (fst (snd (monitor_website_iteration L ci e (m, w)))) = url m /\
  hash_file (fst (snd (monitor_website_iteration L ci e (m, w)))) = hash_file m /\
  email_config (fst (snd (monitor_website_iteration L ci e (m, w))))
    = email_config m /\
  (forall p, p <> hash_file m ->
     files (snd (snd (monitor_website_iteration L ci e (m, w)))) !! p
       = files w !! p) /\
  (truthy (email_config m) = false ->
   smtp_trace (snd (snd (monitor_website_iteration L ci e (m, w))))
     = smtp_trace w).
Proof.
  destruct (check_frame L e m w)
    as (U & _ & C & _ & H & F & _ & _ & t & T & Ht).
  destruct (iteration_cases ci e m w)
    as [(x & _ & _ & R') | [(x & _ & _ & R') | (b & m1 & w1 & w2 & R & R' & F' & T' & _ & Ir & Tu & Si)]];
    rewrite R'; cbn [fst snd]; try (cbn; repeat split; auto; fail).
  rewrite R in U, C, H, F, T. cbn [fst snd] in U, C, H, F, T.
  repeat (split; [assumption|]).
  split; [intros p Hp; rewrite F'; now apply F|].
  intros Hcfg. rewrite T', T, (Ht Hcfg). now rewrite app_nil_r.
Qed.

(** X13.  What the loop never changes: [is_running], [target_url] and
    [check_interval] of [monitor_status], the monitor's address, hash file
    and email configuration, and every file other than the monitor's hash
    file, however many iterations run and however they end. *)
Theorem X13_loop_invariants (ci : Z) (es : list env) :
  forall (m : WebsiteChangeMonitor) (w : world),
    is_running (monitor_status (snd (snd (monitor_website_loop L ci es (m, w)))))
      = is_running (monitor_status w) /\
    target_url (monitor_status (snd (snd (monitor_website_loop L ci es (m, w)))))
      = target_url (monitor_status w) /\
    status_check_interval
      (monitor_status (snd (snd (monitor_website_loop L ci es (m, w)))))
      = status_check_interval (monitor_status w) /\
    url (fst (snd (monitor_website_loop L ci es (m, w)))) = url m /\
    hash_file (fst (snd (monitor_website_loop L ci es (m, w)))) = hash_file m /\
    email_config (fst (snd (monitor_website_loop L ci es (m, w))))
      = email_config m /\
    (forall p, p <> hash_file m ->
       files (snd (snd (monitor_website_loop L ci es (m, w)))) !! p
         = files w !! p).
Proof.
  induction es as [|e es IH]; intros m w; simpl.
  - repeat split.
  - pose proof (iteration_keeps ci e m w) as K. unfold bind.
    destruct (monitor_website_iteration L ci e (m, w)) as [[[]|x] [m1 w1]];
      cbn [fst snd] in *.
    + destruct K as (Ir & Tu & Si & U & H & C & F & _).
      destruct (IH m1 w1) as (Ir' & Tu' & Si' & U' & H' & C' & F').
      repeat split; try congruence.
      intros p Hp. rewrite F'; [now apply F | congruence].
    + destruct K as (Ir & Tu & Si & U & H & C & F & _). repeat split; auto.
Qed.

(** The loop never replaces the email configuration. *)
Lemma loop_keeps_email_config (ci : Z) (es : list env) :
  forall (m : WebsiteChangeMonitor) (w : world),
    email_config (fst (snd (monitor_website_loop L ci es (m, w))))
      = email_config m.
Proof.
  induction es as [|e es IH]; intros m w; simpl.
  - reflexivity.
  - pose proof (iteration_keeps ci e m w) as K. unfold bind.
    destruct (monitor_website_iteration L ci e (m, w)) as [[[]|x] [m1 w1]];
      cbn [fst snd] in *; destruct K as (_ & _ & _ & _ & _ & C & _).
    + now rewrite IH.
    + exact C.
Qed.

(** The loop makes no SMTP call when the monitor has no email
    configuration. *)
Lemma loop_without_email (ci : Z) (es : list env) :
  forall (m : WebsiteChangeMonitor) (w : world),
    truthy (email_config m) = false ->
    smtp_trace (snd (snd (monitor_website_loop L ci es (m, w)))) = smtp_trace w.
Proof.
  induction es as [|e es IH]; intros m w Hcfg; simpl.
  - reflexivity.
  - pose proof (iteration_keeps ci e m w) as K. unfold bind.
    destruct (monitor_website_iteration L ci e (m, w)) as [[[]|x] [m1 w1]];
      cbn [fst snd] in *;
      destruct K as (_ & _ & _ & _ & _ & C & _ & T).
    + rewrite IH; [now apply T | now rewrite C].
    + now apply T.
Qed.

End LoopCases.

(** ** Counting changes *)

Section Counting.

Variable L : library.

(** One iteration on a non-empty body, knowing the digest in memory. *)
Lemma iteration_on_body (ci : Z) (e : env) (m : WebsiteChangeMonitor)
    (w : world) (c : string) (prev : option string) :
  env_fetch e = FetchText c -> c <> "" ->
  previous_hash m = of_option prev -> prev <> Some "" ->
  exists w',
    monitor_website_iteration L ci e (m, w) =
      (Returns tt, (set_previous_hash (PyStr (sha256_hexdigest L c)) m, w')) /\
    changes_detected (monitor_status w') =
      changes_detected (monitor_status w)
      + match prev with
        | Some p => if String.eqb (sha256_hexdigest L c) p then 0 else 1
        | None => 0
        end.
Proof.
  intros Hf Hc Hprev Hne.
  assert (Hb : exists b w1,
    check_for_changes L e (m, w) =
      (Returns b, (set_previous_hash (PyStr (sha256_hexdigest L c)) m, w1)) /\
    monitor_status w1 = monitor_status w /\
    (if b then 1 else 0) =
      match prev with
      | Some p => if String.eqb (sha256_hexdigest L c) p then 0 else 1
      | None => 0
      end).
  { destruct prev as [p|]; cbn [of_option] in Hprev.
    - assert (Hp : truthy (previous_hash m) = true).
      { rewrite Hprev. apply truthy_str. congruence. }
      destruct (String.eqb_spec (sha256_hexdigest L c) p) as [Heq|Hneq].
      + assert (Hn : py_ne (Some (sha256_hexdigest L c)) (previous_hash m) = false)
          by (rewrite Hprev, Heq; apply py_ne_same).
        exists false. eexists. split; [|split; [|reflexivity]].
        * rewrite (check_no_change L e m w c Hf Hc Hp Hn).
          rewrite (set_previous_hash_same m (PyStr (sha256_hexdigest L c)));
            [reflexivity | congruence].
        * reflexivity.
      + assert (Hn : py_ne (Some (sha256_hexdigest L c)) (previous_hash m) = true)
          by (rewrite Hprev; now apply py_ne_str).
        destruct (check_changed L e m w c Hf Hc Hp Hn)
          as (w1 & _ & _ & R & _ & _ & _ & _ & _ & St).
        exists true, w1. repeat split; assumption.
    - assert (Hp : truthy (previous_hash m) = false) by now rewrite Hprev.
      destruct (check_first_run L e m w c Hf Hc Hp)
        as (w1 & R & _ & _ & _ & _ & St).
      exists false, w1. repeat split; assumption. }
  destruct Hb as (b & w1 & R & St & Hcount).
  destruct (iteration_after_return L ci e m _ w w1 b R)
    as (w' & R' & _ & _ & _ & _ & _ & _ & C & _).
  exists w'. split; [exact R'|]. rewrite C, St, Hcount. reflexivity.
Qed.

(** X14.  Over a run of the loop in which every fetch gives a non-empty
    body, [changes_detected] grows by the number of bodies whose digest
    differs from the digest before them; the first body of a monitor without
    a previous hash counts for nothing (it sets the baseline).  The loop is
    still looping and the last digest is the previous hash. *)
Theorem X14_changes_detected_counts_digest_changes (ci : Z) (es : list env)
    (bodies : list string) :
  (forall s, sha256_hexdigest L s <> "") ->
  Forall2 (fun e c => env_fetch e = FetchText c /\ c <> "") es bodies ->
  forall (m : WebsiteChangeMonitor) (w : world) (prev : option string),
    previous_hash m = of_option prev -> prev <> Some "" ->
    exists m' w',
      monitor_website_loop L ci es (m, w) = (Returns StillLooping, (m', w')) /\
      changes_detected (monitor_status w') =
        changes_detected (monitor_status w)
        + count_changes (sha256_hexdigest L) prev bodies /\
      previous_hash m' = of_option (last_digest (sha256_hexdigest L) prev bodies).
Proof.
  intros Hsha. induction 1 as [|e c es bodies [Hf Hc] _ IH];
    intros m w prev Hprev Hne; simpl.
  - exists m, w. split; [reflexivity|]. split; [lia|exact Hprev].
  - destruct (iteration_on_body ci e m w c prev Hf Hc Hprev Hne)
      as (w1 & R & C).
    unfold bind. rewrite R.
    destruct (IH (set_previous_hash (PyStr (sha256_hexdigest L c)) m) w1
                (Some (sha256_hexdigest L c)) eq_refl)
      as (m' & w' & R' & C' & P').
    { intros [= H]. now apply (Hsha c). }
    exists m', w'. split; [exact R'|]. split; [|exact P'].
    rewrite C', C. lia.
Qed.

(** X15.  A negative check interval is used as it is.  In an iteration whose
    check returns, the status is brought up to date ([last_check_time] set,
    [changes_detected] raised on a change), then [time.sleep] rejects the
    interval: the [ValueError] is logged as an error of the loop and the
    iteration sleeps the 60 second fallback instead. *)
Theorem X15_negative_interval (ci : Z) (e : env) (m m' : WebsiteChangeMonitor)
    (w w' : world) (b : bool) :
  ci < 0 ->
  check_for_changes L e (m, w) = (Returns b, (m', w')) ->
  monitor_website_iteration L ci e (m, w) =
    (Returns tt,
     (m', add_sleep 60
            (add_log (ERROR, ErrorInMonitoringLoop ValueError)
               (add_log (INFO, SleepingUntilNextCheck ci)
                  (set_status
                     ((if b then status_increment_changes else fun st => st)
                        (status_set_last_check_time (env_now e)
                           (monitor_status w')))
                     w'))))).
Proof.
  intros Hci R. apply Z.ltb_lt in Hci.
  unfold monitor_website_iteration, try_except, bind at 1. rewrite R.
  unfold bind, lift, update_monitor_status, update_status, bind, modify,
    log, time_sleep, modify, raise, ret.
  destruct b; rewrite Hci; reflexivity.
Qed.

End Counting.

(** ** Start-up, in general *)

Section StartupCases.

Variable L : library.

(** Unless the port is no number, [build_email_config] returns after one
    log line, with no configuration when a required setting is missing. *)
Lemma build_email_config_returns (environ : gmap string string) :
  (forallb (fun var => truthy (environ_get environ var))
     ["EMAIL_SENDER"; "EMAIL_RECIPIENT"; "SMTP_SERVER"] = true ->
   py_int (environ_get_default environ "SMTP_PORT" "587") <> None) ->
  exists cfg line,
    (forallb (fun var => truthy (environ_get environ var))
       ["EMAIL_SENDER"; "EMAIL_RECIPIENT"; "SMTP_SERVER"] = false ->
     cfg = PyNone) /\
    forall w, build_email_config environ w = (Returns cfg, add_log line w).
Proof.
  intros Hport.
  destruct (forallb _ _) eqn:Hall.
  - destruct (py_int (environ_get_default environ "SMTP_PORT" "587"))
      as [port|] eqn:Hp; [|now destruct (Hport eq_refl)].
    eexists. eexists. split; [discriminate|].
    intros w. apply (build_email_config_present environ w port Hall Hp).
  - exists PyNone, (WARNING, EmailNotConfigured). split; [reflexivity|].
    intros w. unfold build_email_config. rewrite Hall. reflexivity.
Qed.

(** [__init__] only adds to the log. *)
Lemma init_logs (u : string) (i : Z) (cfg : pyval) (w : world) :
  exists pre, logs (snd (__init__ L u i cfg w)) = (logs w ++ pre)%list.
Proof.
  unfold __init__, _get_saved_hash, bind, this, try_except, lift,
    os_path_exists, open_json_load, bind, get, ret, assign_previous_hash,
    modify, log, dict_get, raise.
  cbn [fst snd hash_file].
  destruct (files w !! _) as [[v|]|] eqn:Hfile;
    cbn; rewrite ?Hfile; [destruct v| |]; cbn;
    rewrite <- ?app_assoc; eexists; reflexivity.
Qed.

(** With a target address, and unless the port is no number,
    [monitor_website] builds the monitor, sets the status and enters the
    loop. *)
Lemma monitor_website_enters_loop (environ : gmap string string) (u : string)
    (w : world) :
  environ !! "WEBSITE_URL" = Some u -> u <> "" ->
  (forallb (fun var => truthy (environ_get environ var))
     ["EMAIL_SENDER"; "EMAIL_RECIPIENT"; "SMTP_SERVER"] = true ->
   py_int (environ_get_default environ "SMTP_PORT" "587") <> None) ->
  exists cfg w2,
    (forallb (fun var => truthy (environ_get environ var))
       ["EMAIL_SENDER"; "EMAIL_RECIPIENT"; "SMTP_SERVER"] = false ->
     cfg = PyNone) /\
    files w2 = files w /\ smtp_trace w2 = smtp_trace w /\
    sleeps w2 = sleeps w /\
    monitor_status w2 =
      mkStatus true (last_check_time (monitor_status w)) (Some u)
        (Some (match py_int (environ_get_default environ "CHECK_INTERVAL" "3600")
               with Some z => z | None => 3600 end))
        (changes_detected (monitor_status w)) /\
    (py_int (environ_get_default environ "CHECK_INTERVAL" "3600") = None ->
     In (ERROR, InvalidCheckInterval) (logs w2)) /\
    forall es,
      monitor_website L environ es w =
        match monitor_website_loop L
                (match py_int (environ_get_default environ "CHECK_INTERVAL" "3600")
                 with Some z => z | None => 3600 end)
                es
                (mkMonitor u
                   (match py_int (environ_get_default environ "CHECK_INTERVAL" "3600")
                    with Some z => z | None => 3600 end)
                   cfg (md5_hexdigest L u) (hash_file_of L u)
                   (saved_hash_of (files w !! hash_file_of L u)), w2)
        with
        | (Returns r, (m, w')) => (Returns (Some (m, r)), w')
        | (Raised x, (_, w')) => (Raised x, w')
        end.
Proof.
  intros Hurl Hu Hport.
  destruct (build_email_config_returns environ Hport) as (cfg & line & Hnone & Hb).
  assert (Ht : truthy (PyStr u) = true) by now apply truthy_str.
  set (ci := match py_int (environ_get_default environ "CHECK_INTERVAL" "3600")
             with Some z => z | None => 3600 end).
  set (w0 := match py_int (environ_get_default environ "CHECK_INTERVAL" "3600")
             with Some _ => w | None => add_log (ERROR, InvalidCheckInterval) w
             end).
  assert (F0 : files w0 = files w /\ smtp_trace w0 = smtp_trace w /\
               sleeps w0 = sleeps w /\ monitor_status w0 = monitor_status w).
  { unfold w0.
    destruct (py_int (environ_get_default environ "CHECK_INTERVAL" "3600"));
      repeat split. }
  destruct F0 as (F0 & T0 & S0 & St0).
  destruct (init_run L u ci cfg (add_log line w0))
    as (w1 & R1 & F1 & T1 & S1 & St1 & _).
  cbn [files smtp_trace sleeps monitor_status add_log] in F1, T1, S1, St1.
  cbn [files add_log] in R1. rewrite F0 in R1.
  exists cfg.
  exists (set_status (status_set_check_interval ci
            (status_set_target_url u
               (status_set_is_running true (monitor_status w1))))
            (add_log (INFO, StartingWebsiteMonitor u)
               (set_status (monitor_status w1) w1))).
  split; [exact Hnone|].
  cbn [files smtp_trace sleeps monitor_status add_log set_status].
  split; [congruence|]. split; [congruence|]. split; [congruence|].
  split.
  { rewrite St1, St0. reflexivity. }
  assert (G1 : exists pre, logs w1 = (logs (add_log line w0) ++ pre)%list).
  { destruct (init_logs u ci cfg (add_log line w0)) as (pre & G).
    assert (R1' : __init__ L u ci cfg (add_log line w0) = (Returns
              (mkMonitor u ci cfg (md5_hexdigest L u) (hash_file_of L u)
                 (saved_hash_of (files w !! hash_file_of L u))), w1))
      by exact R1.
    rewrite R1' in G. exists pre. exact G. }
  destruct G1 as (pre & G1).
  split.
  { intros Hint. cbn. rewrite G1. cbn. unfold w0. rewrite Hint. cbn.
    rewrite !List.in_app_iff. cbn. tauto. }
  intros es. unfold monitor_website, environ_get at 1 2. rewrite Hurl.
  cbn [of_option]. rewrite Ht. cbn [negb].
  unfold bind at 1. unfold try_except, int.
  fold ci.
  assert (E : (match py_int (environ_get_default environ "CHECK_INTERVAL" "3600")
               with
               | Some z => ret z
               | None => raise ValueError
               end) w = (match py_int (environ_get_default environ "CHECK_INTERVAL" "3600")
                         with
                         | Some z => Returns z
                         | None => Raised ValueError
                         end, w)).
  { destruct (py_int (environ_get_default environ "CHECK_INTERVAL" "3600"));
      reflexivity. }
  rewrite E. clear E.
  assert (E : (match
                 match py_int (environ_get_default environ "CHECK_INTERVAL" "3600")
                 with
                 | Some z => Returns z
                 | None => Raised ValueError
                 end
               with
               | Returns a => (Returns a, w)
               | Raised e0 =>
                   if is_ValueError e0
                   then bind (log ERROR InvalidCheckInterval)
                          (fun _ => ret 3600) w
                   else (Raised e0, w)
               end) = (Returns ci, w0)).
  { unfold ci, w0.
    destruct (py_int (environ_get_default environ "CHECK_INTERVAL" "3600"));
      reflexivity. }
  rewrite E. clear E.
  unfold bind at 1. rewrite Hb.
  unfold bind at 1. rewrite R1.
  reflexivity.
Qed.

End StartupCases.

Section StartupProperties.

Variable L : library.

(** X16.  The check interval at start-up.  When [CHECK_INTERVAL] is unset,
    or set to something [int] rejects, the monitor is built with an interval
    of 3600 seconds and the status shows 3600; in the second case one error
    line is logged.  Either way the status shows the monitor running on the
    target address. *)
Theorem X16_check_interval_defaults_to_3600 (environ : gmap string string)
    (u : string) (w : world) :
  environ !! "WEBSITE_URL" = Some u -> u <> "" ->
  (forallb (fun var => truthy (environ_get environ var))
     ["EMAIL_SENDER"; "EMAIL_RECIPIENT"; "SMTP_SERVER"] = true ->
   py_int (environ_get_default environ "SMTP_PORT" "587") <> None) ->
  environ !! "CHECK_INTERVAL" = None \/
  py_int (environ_get_default environ "CHECK_INTERVAL" "3600") = None ->
  exists m w',
    monitor_website L environ [] w = (Returns (Some (m, StillLooping)), w') /\
    url m = u /\ check_interval m = 3600 /\
    is_running (monitor_status w') = true /\
    target_url (monitor_status w') = Some u /\
    status_check_interval (monitor_status w') = Some 3600 /\
    (py_int (environ_get_default environ "CHECK_INTERVAL" "3600") = None ->
     In (ERROR, InvalidCheckInterval) (logs w')).
Proof.
  intros Hurl Hu Hport Hci.
  destruct (monitor_website_enters_loop L environ u w Hurl Hu Hport)
    as (cfg & w2 & _ & _ & _ & _ & St & Hlog & Hrun).
  assert (E : match py_int (environ_get_default environ "CHECK_INTERVAL" "3600")
              with Some z => z | None => 3600 end = 3600).
  { destruct Hci as [Hci | Hci].
    - unfold environ_get_default. rewrite Hci. reflexivity.
    - rewrite Hci. reflexivity. }
  rewrite E in Hrun, St.
  eexists. exists w2. split; [apply (Hrun [])|]. rewrite St.
  repeat split. exact Hlog.
Qed.

(** X17.  Without a target address ([WEBSITE_URL] unset or empty)
    [monitor_website] logs one error and returns, whatever else the
    environment holds and whatever the outside would answer: no monitor is
    built, no check is made, and the files and [monitor_status] (with
    [is_running] as it was) are untouched. *)
Theorem X17_no_target_no_monitor (environ : gmap string string)
    (es : list env) (w : world) :
  environ !! "WEBSITE_URL" = None \/ environ !! "WEBSITE_URL" = Some "" ->
  monitor_website L environ es w =
    (Returns None, add_log (ERROR, WebsiteUrlNotSet) w).
Proof.
  intros H. unfold monitor_website, environ_get.
  destruct H as [-> | ->]; reflexivity.
Qed.

(** X18.  Email is all or nothing.  When one of [EMAIL_SENDER],
    [EMAIL_RECIPIENT] and [SMTP_SERVER] is unset or empty, the monitor is
    built without an email configuration, and no run of the loop ever makes
    an SMTP call, whatever the other email settings are and whatever the
    page does. *)
Theorem X18_no_email_without_all_three (environ : gmap string string)
    (u : string) (es : list env) (w : world) :
  environ !! "WEBSITE_URL" = Some u -> u <> "" ->
  forallb (fun var => truthy (environ_get environ var))
    ["EMAIL_SENDER"; "EMAIL_RECIPIENT"; "SMTP_SERVER"] = false ->
  smtp_trace (snd (monitor_website L environ es w)) = smtp_trace w /\
  forall m r, fst (monitor_website L environ es w) = Returns (Some (m, r)) ->
              email_config m = PyNone.
Proof.
  intros Hurl Hu Hall.
  destruct (monitor_website_enters_loop L environ u w Hurl Hu)
    as (cfg & w2 & Hcfg & _ & T & _ & _ & _ & Hrun).
  { rewrite Hall. discriminate. }
  rewrite (Hcfg Hall) in Hrun. rewrite Hrun.
  match goal with
  | |- context [monitor_website_loop L ?ci es (?m0, w2)] =>
      pose proof (loop_without_email L ci es m0 w2 eq_refl) as Hs;
      pose proof (loop_keeps_email_config L ci es m0 w2) as Hc;
      destruct (monitor_website_loop L ci es (m0, w2)) as [[r|x] [m1 w1]]
  end; cbn [fst snd] in *.
  - split; [congruence|]. intros m r' [= <- <-]. exact Hc.
  - split; [congruence|]. discriminate.
Qed.

End StartupProperties.

(** ** [start_monitoring] *)

Section StartMonitoring.

Variable L : library.

(** One well-behaved pass of the loop of [start_monitoring]: the check
    returns, and the configured interval is slept. *)
Lemma start_monitoring_step (e : env) (m : WebsiteChangeMonitor) (w : world) :
  (forall x, env_fetch e = FetchRaises x -> is_RequestException x = true) ->
  0 <= check_interval m <= 9223372036 ->
  exists b m1 w1 o,
    check_for_changes L e (m, w) = (Returns b, (m1, w1)) /\
    reported w1 = (reported w ++ [o])%list /\
    check_interval m1 = check_interval m /\ url m1 = url m /\
    sleeps w1 = sleeps w /\
    forall rest,
      start_monitoring_loop L (e :: rest) (m, w) =
        start_monitoring_loop L rest
          (m1, add_sleep (check_interval m)
                 (add_log (INFO, Sleeping (check_interval m)) w1)).
Proof.
  intros He [Hlo Hhi].
  destruct (check_frame L e m w) as (U & I & _ & _ & _ & _ & S & _).
  destruct (check_cases L e m w)
    as [(x & Hf & Hx & _) | (b & m1 & w1 & o & R & G & _)].
  { rewrite (He x Hf) in Hx. discriminate. }
  rewrite R in U, I, S. cbn [fst snd] in U, I, S.
  exists b, m1, w1, o. repeat (split; [assumption|]).
  intros rest. cbn [start_monitoring_loop]. unfold bind at 1. rewrite R.
  unfold bind at 1, this at 1. cbn [fst snd].
  unfold bind at 1, lift at 1, log, modify. cbn [fst snd].
  unfold bind at 1, lift at 1, time_sleep. cbn [fst snd]. rewrite I.
  assert (H1 : (check_interval m <? 0) = false) by (apply Z.ltb_ge; lia).
  assert (H2 : (9223372036 <? check_interval m) = false) by (apply Z.ltb_ge; lia).
  rewrite H1, H2. reflexivity.
Qed.

Lemma start_monitoring_prefix (es : list env) :
  Forall (fun e => forall x, env_fetch e = FetchRaises x ->
                             is_RequestException x = true) es ->
  forall m w,
    0 <= check_interval m <= 9223372036 ->
    exists m' w',
      check_interval m' = check_interval m /\ url m' = url m /\
      sleeps w' = (sleeps w ++ repeat (check_interval m) (length es))%list /\
      length (reported w') = (length (reported w) + length es)%nat /\
      forall rest,
        start_monitoring_loop L (es ++ rest) (m, w) =
          start_monitoring_loop L rest (m', w').
Proof.
  induction 1 as [|e es He _ IH]; intros m w Hci.
  - exists m, w. cbn. rewrite app_nil_r. repeat split. lia.
  - destruct (start_monitoring_step e m w He Hci)
      as (b & m1 & w1 & o & _ & G & I & U & S & Hstep).
    destruct (IH m1 (add_sleep (check_interval m)
                       (add_log (INFO, Sleeping (check_interval m)) w1)))
      as (m' & w' & I' & U' & S' & G' & Hrest).
    { now rewrite I. }
    exists m', w'. split; [congruence|]. split; [congruence|].
    split.
    { rewrite S'. cbn. rewrite S, I. now rewrite <- app_assoc. }
    split.
    { rewrite G'.
      change (reported (add_sleep (check_interval m)
                (add_log (INFO, Sleeping (check_interval m)) w1)))
        with (reported (add_log (INFO, Sleeping (check_interval m)) w1)).
      rewrite reported_add_log. cbn. rewrite app_nil_r.
      rewrite G, length_app. cbn. lia. }
    intros rest. cbn [app]. rewrite Hstep. apply Hrest.
Qed.

(** X19.  [start_monitoring] keeps its rhythm.  While each fetch gives a
    body or fails with a [RequestException], and the interval is one
    [time.sleep] accepts, the loop runs on: after any number of passes it is
    still looping, has made one check per pass and has slept exactly the
    configured interval after each of them (a failed fetch is not retried
    sooner). *)
Theorem X19_start_monitoring_keeps_its_rhythm (es : list env)
    (m : WebsiteChangeMonitor) (w : world) :
  Forall (fun e => forall x, env_fetch e = FetchRaises x ->
                             is_RequestException x = true) es ->
  0 <= check_interval m <= 9223372036 ->
  exists m' w',
    start_monitoring L es (m, w) = (Returns StillLooping, (m', w')) /\
    sleeps w' = (sleeps w ++ repeat (check_interval m) (length es))%list /\
    length (reported w') = (length (reported w) + length es)%nat.
Proof.
  intros Hes Hci.
  destruct (start_monitoring_prefix es Hes m
              (add_log (INFO, StartingToMonitor (url m) (check_interval m)) w)
              Hci)
    as (m' & w' & _ & _ & S & G & Hrest).
  exists m', w'.
  unfold start_monitoring, bind at 1 2, this at 1, lift at 1, log, modify.
  cbn [fst snd].
  specialize (Hrest []). rewrite app_nil_r in Hrest. rewrite Hrest. cbn.
  split; [reflexivity|]. split; [exact S|].
  rewrite G, reported_add_log. cbn. now rewrite app_nil_r.
Qed.

(** X20.  What ends [start_monitoring].  When, after any number of
    well-behaved passes, the fetch raises something that is no
    [RequestException]: a [KeyboardInterrupt] is logged as a stop by the user
    and the method returns normally; anything else is logged as an
    unexpected error and raised again to the caller.  Either way no further
    check is made. *)
Theorem X20_what_ends_start_monitoring (es rest : list env) (e : env)
    (m : WebsiteChangeMonitor) (w : world) (x : exn) :
  Forall (fun e => forall x, env_fetch e = FetchRaises x ->
                             is_RequestException x = true) es ->
  0 <= check_interval m <= 9223372036 ->
  env_fetch e = FetchRaises x -> is_RequestException x = false ->
  exists m' w',
    start_monitoring L (es ++ e :: rest) (m, w) =
      (if is_KeyboardInterrupt x then Returns LoopLeft else Raised x,
       (m', add_log (if is_KeyboardInterrupt x
                     then (INFO, StoppedByUser)
                     else (ERROR, UnexpectedError x))
              (add_log (INFO, Checking (url m)) w'))) /\
    length (reported w') = (length (reported w) + length es)%nat.
Proof.
  intros Hes Hci Hf Hx.
  destruct (start_monitoring_prefix es Hes m
              (add_log (INFO, StartingToMonitor (url m) (check_interval m)) w)
              Hci)
    as (m' & w' & _ & U & _ & G & Hrest).
  exists m', w'. split.
  - unfold start_monitoring, bind at 1 2, this at 1, lift at 1, log, modify.
    cbn [fst snd]. rewrite Hrest.
    cbn [start_monitoring_loop]. unfold bind at 1.
    rewrite (check_raises L e m' w' x Hf Hx), U.
    destruct x; try discriminate Hx; reflexivity.
  - rewrite G, reported_add_log. cbn. now rewrite app_nil_r.
Qed.

(** X21.  [start_monitoring] with a negative interval.  The first check is
    made as usual; then [time.sleep] rejects the interval, and the
    [ValueError] is logged as an unexpected error and raised to the caller:
    the loop ends after one check without having slept. *)
Theorem X21_start_monitoring_negative_interval (e : env) (rest : list env)
    (m : WebsiteChangeMonitor) (w : world) :
  (forall x, env_fetch e = FetchRaises x -> is_RequestException x = true) ->
  check_interval m < 0 ->
  exists m1 w1 o,
    start_monitoring L (e :: rest) (m, w) =
      (Raised ValueError,
       (m1, add_log (ERROR, UnexpectedError ValueError)
              (add_log (INFO, Sleeping (check_interval m)) w1))) /\
    reported w1 = (reported w ++ [o])%list /\
    sleeps w1 = sleeps w.
Proof.
  intros He Hci.
  set (w0 := add_log (INFO, StartingToMonitor (url m) (check_interval m)) w).
  destruct (check_frame L e m w0) as (_ & I & _ & _ & _ & _ & S & _).
  destruct (check_cases L e m w0)
    as [(x & Hf & Hx & _) | (b & m1 & w1 & o & R & G & _)].
  { rewrite (He x Hf) in Hx. discriminate. }
  rewrite R in I, S. cbn [fst snd] in I, S.
  exists m1, w1, o. split; [|split].
  - unfold start_monitoring, bind at 1 2, this at 1, lift at 1, log, modify.
    cbn [fst snd]. fold w0.
    cbn [start_monitoring_loop]. unfold bind at 1. rewrite R.
    unfold bind at 1, this at 1. cbn [fst snd].
    unfold bind at 1, lift at 1, modify. cbn [fst snd].
    unfold bind at 1, lift at 1, time_sleep. cbn [fst snd]. rewrite I.
    apply Z.ltb_lt in Hci. rewrite Hci. reflexivity.
  - rewrite G. unfold w0. rewrite reported_add_log. cbn. now rewrite app_nil_r.
  - exact S.
Qed.

End StartMonitoring.

(** ** The further properties on concrete inputs *)

Lemma X8_smtp_session_witness :
  forallb (fun var => truthy (environ_get sample_environ var))
    ["EMAIL_SENDER"; "EMAIL_RECIPIENT"; "SMTP_SERVER"] = true /\
  py_int (environ_get_default sample_environ "SMTP_PORT" "587") = Some 587 /\
  build_email_config sample_environ empty_world =
    (Returns (email_config (sample_monitor sample_email_config PyNone)),
     add_log (INFO, EmailConfigured) empty_world) /\
  env_smtp_error (env_page "B" 2) = None /\
  exists w',
    _send_email_notification sample_library (env_page "B" 2)
      (sample_monitor sample_email_config PyNone, empty_world)
      = (Returns tt, (sample_monitor sample_email_config PyNone, w')) /\
    logs w' = [(INFO, EmailSent)] /\
    length (smtp_trace w') = 5%nat.
Proof.
  assert (H1 : forallb (fun var => truthy (environ_get sample_environ var))
                 ["EMAIL_SENDER"; "EMAIL_RECIPIENT"; "SMTP_SERVER"] = true)
    by (vm_compute; reflexivity).
  assert (H2 : py_int (environ_get_default sample_environ "SMTP_PORT" "587")
               = Some 587) by (vm_compute; reflexivity).
  assert (H3 : build_email_config sample_environ empty_world =
    (Returns (email_config (sample_monitor sample_email_config PyNone)),
     add_log (INFO, EmailConfigured) empty_world)) by (vm_compute; reflexivity).
  split; [exact H1|]. split; [exact H2|]. split; [exact H3|].
  split; [reflexivity|].
  destruct (X8_smtp_session_from_environment sample_library sample_environ
              empty_world _ 587 (env_page "B" 2)
              (sample_monitor sample_email_config PyNone) empty_world
              H1 H2 H3 eq_refl) as (w' & R & T & G & _).
  exists w'. split; [exact R|]. split; [exact G|].
  rewrite T. vm_compute. reflexivity.
Defined.

Lemma X9_failing_call_witness :
  email_config (sample_monitor sample_email_config PyNone)
    = sample_email_config /\
  env_smtp_error (mkEnv (FetchText "B") WriteOk 2 (Some StepSend))
    = Some StepSend /\
  exists w' before last_call,
    _send_email_notification sample_library
      (mkEnv (FetchText "B") WriteOk 2 (Some StepSend))
      (sample_monitor sample_email_config PyNone, empty_world)
      = (Returns tt, (sample_monitor sample_email_config PyNone, w')) /\
    smtp_trace w' = (before ++ [last_call])%list /\
    step_of_action last_call = StepSend.
Proof.
  split; [reflexivity|]. split; [reflexivity|].
  destruct (X9_failing_call_is_the_last sample_library
              (mkEnv (FetchText "B") WriteOk 2 (Some StepSend))
              (sample_monitor sample_email_config PyNone) empty_world
              _ _ _ _ _ StepSend
              eq_refl eq_refl eq_refl eq_refl eq_refl eq_refl
              (or_intror (or_introl eq_refl)))
    as (w' & before & last_call & R & T & S & _).
  exists w', before, last_call. split; [exact R|]. split; [exact T|exact S].
Defined.

Lemma X10_missing_setting_witness :
  email_config (sample_monitor (PyDict [("recipient", PyStr "ops@example.com")])
                  PyNone)
    = PyDict [("recipient", PyStr "ops@example.com")] /\
  [("recipient", PyStr "ops@example.com")] <> [] /\
  assoc "sender" [("recipient", PyStr "ops@example.com")] = None /\
  _send_email_notification sample_library (env_page "B" 2)
    (sample_monitor (PyDict [("recipient", PyStr "ops@example.com")]) PyNone,
     empty_world)
    = (Returns tt,
       (sample_monitor (PyDict [("recipient", PyStr "ops@example.com")]) PyNone,
        add_log (ERROR, EmailFailed KeyError) empty_world)).
Proof.
  split; [reflexivity|]. split; [discriminate|]. split; [reflexivity|].
  apply (X10_missing_setting_is_absorbed sample_library (env_page "B" 2)
           (sample_monitor (PyDict [("recipient", PyStr "ops@example.com")])
              PyNone)
           empty_world [("recipient", PyStr "ops@example.com")] eq_refl);
    [discriminate | left; reflexivity].
Defined.

Lemma X11_iteration_raises_witness :
  env_fetch (mkEnv (FetchRaises ValueError) WriteOk 3 None)
    = FetchRaises ValueError /\
  is_RequestException ValueError = false /\
  monitor_status
    (snd (snd (monitor_website_iteration sample_library 5
                 (mkEnv (FetchRaises ValueError) WriteOk 3 None)
                 (sample_monitor PyNone PyNone, empty_world))))
    = empty_status.
Proof.
  split; [reflexivity|]. split; [reflexivity|].
  rewrite (X11_iteration_whose_check_raises sample_library 5
             (mkEnv (FetchRaises ValueError) WriteOk 3 None)
             (sample_monitor PyNone PyNone) empty_world ValueError
             eq_refl eq_refl).
  reflexivity.
Defined.

Lemma sample_fetches_raise_exceptions :
  Forall (fun e => forall x, env_fetch e = FetchRaises x ->
                             is_Exception x = true)
    [env_page "A" 1; env_down 2].
Proof.
  repeat constructor; intros x H; try discriminate H.
  injection H as <-. reflexivity.
Defined.

Lemma sample_fetches_are_handled :
  Forall (fun e => forall x, env_fetch e = FetchRaises x ->
                             is_RequestException x = true)
    [env_page "A" 1; env_down 2].
Proof.
  repeat constructor; intros x H; try discriminate H.
  injection H as <-. reflexivity.
Defined.

Lemma X12_one_sleep_witness :
  Forall (fun e => forall x, env_fetch e = FetchRaises x ->
                             is_Exception x = true)
    [env_page "A" 1; env_down 2] /\
  exists m' w' naps,
    monitor_website_loop sample_library 5 [env_page "A" 1; env_down 2]
      (sample_monitor PyNone PyNone, empty_world)
      = (Returns StillLooping, (m', w')) /\
    sleeps w' = naps /\ length naps = 2%nat.
Proof.
  split; [exact sample_fetches_raise_exceptions|].
  destruct (X12_one_sleep_per_iteration sample_library 5
              [env_page "A" 1; env_down 2] sample_fetches_raise_exceptions
              (sample_monitor PyNone PyNone) empty_world)
    as (m' & w' & naps & R & S & Hl & _).
  exists m', w', naps. split; [exact R|]. split; [exact S|exact Hl].
Defined.

Lemma sample_bodies :
  Forall2 (fun e c => env_fetch e = FetchText c /\ c <> "")
    [env_page "A" 1; env_page "A" 2; env_page "B" 3] ["A"; "A"; "B"].
Proof. repeat constructor; discriminate. Defined.

Lemma X14_counts_witness :
  (forall s, sha256_hexdigest sample_library s <> "") /\
  Forall2 (fun e c => env_fetch e = FetchText c /\ c <> "")
    [env_page "A" 1; env_page "A" 2; env_page "B" 3] ["A"; "A"; "B"] /\
  previous_hash (sample_monitor PyNone PyNone) = of_option None /\
  @None string <> Some "" /\
  exists m' w',
    monitor_website_loop sample_library 5
      [env_page "A" 1; env_page "A" 2; env_page "B" 3]
      (sample_monitor PyNone PyNone, empty_world)
      = (Returns StillLooping, (m', w')) /\
    changes_detected (monitor_status w') = 1 /\
    previous_hash m' = PyStr "sha256(B)".
Proof.
  split; [exact sample_sha256_nonempty|]. split; [exact sample_bodies|].
  split; [reflexivity|]. split; [discriminate|].
  destruct (X14_changes_detected_counts_digest_changes sample_library 5
              _ _ sample_sha256_nonempty sample_bodies
              (sample_monitor PyNone PyNone) empty_world None eq_refl
              ltac:(discriminate)) as (m' & w' & R & C & P).
  exists m', w'. split; [exact R|]. split; [exact C|exact P].
Defined.

Lemma X15_negative_interval_witness :
  -1 < 0 /\
  exists m' w',
    check_for_changes sample_library (env_page "A" 1)
      (sample_monitor PyNone PyNone, empty_world) = (Returns false, (m', w')) /\
    sleeps (snd (snd (monitor_website_iteration sample_library (-1)
                        (env_page "A" 1)
                        (sample_monitor PyNone PyNone, empty_world)))) = [60] /\
    last_check_time
      (monitor_status
         (snd (snd (monitor_website_iteration sample_library (-1)
                      (env_page "A" 1)
                      (sample_monitor PyNone PyNone, empty_world))))) = Some 1.
Proof.
  split; [lia|].
  eexists. eexists. split; [vm_compute; reflexivity|].
  rewrite (X15_negative_interval sample_library (-1) (env_page "A" 1)
             (sample_monitor PyNone PyNone) _ empty_world _ false
             ltac:(lia) ltac:(vm_compute; reflexivity)).
  split; reflexivity.
Defined.

Lemma bare_environ_has_no_email :
  forallb (fun var => truthy (environ_get bare_environ var))
    ["EMAIL_SENDER"; "EMAIL_RECIPIENT"; "SMTP_SERVER"] = false.
Proof. vm_compute. reflexivity. Defined.

Lemma X16_check_interval_witness :
  bare_environ !! "WEBSITE_URL" = Some sample_url /\ sample_url <> "" /\
  bare_environ !! "CHECK_INTERVAL" = None /\
  exists m w',
    monitor_website sample_library bare_environ [] empty_world
      = (Returns (Some (m, StillLooping)), w') /\
    check_interval m = 3600 /\
    status_check_interval (monitor_status w') = Some 3600.
Proof.
  assert (H1 : bare_environ !! "WEBSITE_URL" = Some sample_url)
    by (vm_compute; reflexivity).
  assert (H2 : bare_environ !! "CHECK_INTERVAL" = None)
    by (vm_compute; reflexivity).
  split; [exact H1|]. split; [discriminate|]. split; [exact H2|].
  destruct (X16_check_interval_defaults_to_3600 sample_library bare_environ
              sample_url empty_world H1 ltac:(discriminate))
    as (m & w' & R & _ & I & _ & _ & S & _).
  - intros H. rewrite bare_environ_has_no_email in H. discriminate H.
  - left. exact H2.
  - exists m, w'. split; [exact R|]. split; [exact I|exact S].
Defined.

Lemma X17_no_target_witness :
  (∅ : gmap string string) !! "WEBSITE_URL" = None /\
  monitor_website sample_library ∅ (page_changes None) empty_world
    = (Returns None, add_log (ERROR, WebsiteUrlNotSet) empty_world).
Proof.
  split; [reflexivity|].
  apply (X17_no_target_no_monitor sample_library ∅ (page_changes None)
           empty_world).
  left. reflexivity.
Defined.

Lemma X18_no_email_witness :
  bare_environ !! "WEBSITE_URL" = Some sample_url /\ sample_url <> "" /\
  forallb (fun var => truthy (environ_get bare_environ var))
    ["EMAIL_SENDER"; "EMAIL_RECIPIENT"; "SMTP_SERVER"] = false /\
  smtp_trace (snd (monitor_website sample_library bare_environ
                     (page_changes None) empty_world)) = [].
Proof.
  assert (H1 : bare_environ !! "WEBSITE_URL" = Some sample_url)
    by (vm_compute; reflexivity).
  split; [exact H1|]. split; [discriminate|].
  split; [exact bare_environ_has_no_email|].
  exact (proj1 (X18_no_email_without_all_three sample_library bare_environ
                  sample_url (page_changes None) empty_world H1
                  ltac:(discriminate) bare_environ_has_no_email)).
Defined.

Lemma X19_rhythm_witness :
  Forall (fun e => forall x, env_fetch e = FetchRaises x ->
                             is_RequestException x = true)
    [env_page "A" 1; env_down 2] /\
  0 <= check_interval (sample_monitor PyNone PyNone) <= 9223372036 /\
  exists m' w',
    start_monitoring sample_library [env_page "A" 1; env_down 2]
      (sample_monitor PyNone PyNone, empty_world)
      = (Returns StillLooping, (m', w')) /\
    sleeps w' = [5; 5].
Proof.
  assert (H : 0 <= check_interval (sample_monitor PyNone PyNone) <= 9223372036)
    by (cbn; lia).
  split; [exact sample_fetches_are_handled|]. split; [exact H|].
  destruct (X19_start_monitoring_keeps_its_rhythm sample_library
              [env_page "A" 1; env_down 2] (sample_monitor PyNone PyNone)
              empty_world sample_fetches_are_handled H)
    as (m' & w' & R & S & _).
  exists m', w'. split; [exact R|exact S].
Defined.

Lemma X20_keyboard_interrupt_witness :
  Forall (fun e => forall x, env_fetch e = FetchRaises x ->
                             is_RequestException x = true)
    [env_page "A" 1; env_down 2] /\
  0 <= check_interval (sample_monitor PyNone PyNone) <= 9223372036 /\
  env_fetch (mkEnv (FetchRaises KeyboardInterrupt) WriteOk 3 None)
    = FetchRaises KeyboardInterrupt /\
  is_RequestException KeyboardInterrupt = false /\
  fst (start_monitoring sample_library
         ([env_page "A" 1; env_down 2]
          ++ mkEnv (FetchRaises KeyboardInterrupt) WriteOk 3 None
             :: [env_page "B" 4])
         (sample_monitor PyNone PyNone, empty_world)) = Returns LoopLeft.
Proof.
  assert (H : 0 <= check_interval (sample_monitor PyNone PyNone) <= 9223372036)
    by (cbn; lia).
  split; [exact sample_fetches_are_handled|]. split; [exact H|].
  split; [reflexivity|]. split; [reflexivity|].
  destruct (X20_what_ends_start_monitoring sample_library
              [env_page "A" 1; env_down 2] [env_page "B" 4]
              (mkEnv (FetchRaises KeyboardInterrupt) WriteOk 3 None)
              (sample_monitor PyNone PyNone) empty_world KeyboardInterrupt
              sample_fetches_are_handled H eq_refl eq_refl)
    as (m' & w' & R & _).
  rewrite R. reflexivity.
Defined.

Lemma X21_negative_interval_witness :
  (forall x, env_fetch (env_page "A" 1) = FetchRaises x ->
             is_RequestException x = true) /\
  check_interval (mkMonitor sample_url (-5) PyNone "" "/tmp/h.json" PyNone) < 0 /\
  fst (start_monitoring sample_library [env_page "A" 1; env_page "B" 2]
         (mkMonitor sample_url (-5) PyNone "" "/tmp/h.json" PyNone,
          empty_world)) = Raised ValueError.
Proof.
  assert (H : forall x, env_fetch (env_page "A" 1) = FetchRaises x ->
                        is_RequestException x = true)
    by (intros x Hx; discriminate Hx).
  split; [exact H|]. split; [cbn; lia|].
  destruct (X21_start_monitoring_negative_interval sample_library
              (env_page "A" 1) [env_page "B" 2]
              (mkMonitor sample_url (-5) PyNone "" "/tmp/h.json" PyNone)
              empty_world H ltac:(cbn; lia))
    as (m1 & w1 & o & R & _).
  rewrite R. reflexivity.
Defined.
